(** * School attendance system: a shallow embedding of [app/main.py]

    The request handlers of [app/main.py] are embedded as programs over the
    database operations they perform (queries, [db.add], [db.delete],
    [db.commit]).  A program is run against a store either alone
    ([run], one request at a time) or interleaved with another request
    ([run2]); both interpreters share the same handler text.

    Code that is imported by [main.py] but is not part of the embedded
    sources ([app/auth.py]: [hash_password], [verify_password],
    [create_access_token], the JWT decoding) and the standard library's
    address parser are section variables. *)

From Stdlib Require Import ZArith String Ascii List Bool Lia Permutation Sorted.
From Stdlib Require Import QArith Qabs Qpower Lqa.
Import ListNotations.

Local Open Scope string_scope.
Local Open Scope Z_scope.

(** ** Python values used by the handlers *)

(** [datetime.date]: compared field by field. *)
Record date := mkdate { year : Z; month : Z; day : Z }.

(** [datetime.time] (naive): hour, minute, second, microsecond. *)
Record time := mktime { hour : Z; minute : Z; second : Z; microsecond : Z }.

(** [datetime.datetime] (naive, as returned by [datetime.now()]);
    [dt_date] is [now.date()], [dt_time] is [now.time()]. *)
Record datetime := mkdatetime { dt_date : date; dt_time : time }.

Definition date_eqb (a b : date) : bool :=
  (year a =? year b) && (month a =? month b) && (day a =? day b).

(** [time(h, m)] leaves seconds and microseconds at 0. *)
Definition time_hm (h m : Z) : time := mktime h m 0 0.

(** Python compares two naive times as the tuples
    (hour, minute, second, microsecond). *)
Definition time_cmp (a b : time) : comparison :=
  match hour a ?= hour b with
  | Eq => match minute a ?= minute b with
          | Eq => match second a ?= second b with
                  | Eq => microsecond a ?= microsecond b
                  | c => c
                  end
          | c => c
          end
  | c => c
  end.

Definition time_gt (a b : time) : bool :=
  match time_cmp a b with Gt => true | _ => false end.

(** Microseconds since midnight, the "time of day" of a [time]. *)
Definition time_of_day (t : time) : Z :=
  ((hour t * 60 + minute t) * 60 + second t) * 1000000 + microsecond t.

(** The field ranges [datetime.time] enforces on construction. *)
Definition valid_time (t : time) : Prop :=
  0 <= hour t < 24 /\ 0 <= minute t < 60 /\ 0 <= second t < 60 /\
  0 <= microsecond t < 1000000.

(** [str.lower()] on the ASCII range.  Bytes outside A-Z are kept: no
    non-ASCII character lowers to a letter of "admin", so the comparison in
    [register] is not affected. *)
Definition ascii_lower (c : ascii) : ascii :=
  let n := nat_of_ascii c in
  if (65 <=? n)%nat && (n <=? 90)%nat then ascii_of_nat (n + 32) else c.

Fixpoint lower (s : string) : string :=
  match s with
  | EmptyString => EmptyString
  | String c r => String (ascii_lower c) (lower r)
  end.

(** A column value, for the places where the ORM reads or writes a column
    by name. *)
Inductive value :=
| VInt (z : Z)
| VStr (s : string)
| VDate (d : date)
| VDateTime (t : datetime)
| VNull.

Definition time_eqb (a b : time) : bool :=
  (hour a =? hour b) && (minute a =? minute b) && (second a =? second b)
  && (microsecond a =? microsecond b).

Definition value_eqb (a b : value) : bool :=
  match a, b with
  | VInt x, VInt y => x =? y
  | VStr x, VStr y => String.eqb x y
  | VDate x, VDate y => date_eqb x y
  | VDateTime x, VDateTime y =>
      date_eqb (dt_date x) (dt_date y) && time_eqb (dt_time x) (dt_time y)
  | _, _ => false
  end.

(** JSON bodies returned by the handlers (Python dicts and lists).  A float
    is carried by its exact rational value. *)
#[local] Unset Elimination Schemes.
Inductive json :=
| JStr (s : string)
| JInt (z : Z)
| JFloat (q : Q)
| JList (l : list json)
| JObj (fields : list (string * json)).
#[local] Set Elimination Schemes.

(** ** [app/models.py] *)

Record User := mkUser {
  User_id : Z;
  User_full_name : string;
  User_email : string;
  User_password : string;
  User_role : string
}.

Record Attendance := mkAttendance {
  Attendance_id : Z;
  Attendance_user_id : Z;
  Attendance_date : date;
  Attendance_check_in : datetime;
  Attendance_status : string
}.

(** The columns each mapped class declares.  [reset_token] is assigned at
    module level in [models.py], above [class User]: it is an attribute of
    the module, not a column of [User]. *)
Definition User_columns : list string :=
  ["id"; "full_name"; "email"; "password"; "role"].

Definition Attendance_columns : list string :=
  ["id"; "user_id"; "date"; "check_in"; "status"].

(** The uniqueness constraints each table declares: the primary key, and
    [unique=True] on [User.email].  [Attendance] declares nothing else. *)
Definition User_unique : list (list string) := [["id"]; ["email"]].
Definition Attendance_unique : list (list string) := [["id"]].

Definition User_get (c : string) (u : User) : value :=
  if (c =? "id")%string then VInt (User_id u)
  else if (c =? "full_name")%string then VStr (User_full_name u)
  else if (c =? "email")%string then VStr (User_email u)
  else if (c =? "password")%string then VStr (User_password u)
  else if (c =? "role")%string then VStr (User_role u)
  else VNull.

Definition Attendance_get (c : string) (a : Attendance) : value :=
  if (c =? "id")%string then VInt (Attendance_id a)
  else if (c =? "user_id")%string then VInt (Attendance_user_id a)
  else if (c =? "date")%string then VDate (Attendance_date a)
  else if (c =? "check_in")%string then VDateTime (Attendance_check_in a)
  else if (c =? "status")%string then VStr (Attendance_status a)
  else VNull.

(** Writing a string column of a [User] row (the only writes [main.py]
    performs on a loaded user). *)
Definition User_set (c : string) (v : value) (u : User) : User :=
  match v with
  | VStr s =>
      if (c =? "full_name")%string then mkUser (User_id u) s (User_email u) (User_password u) (User_role u)
      else if (c =? "email")%string then mkUser (User_id u) (User_full_name u) s (User_password u) (User_role u)
      else if (c =? "password")%string then mkUser (User_id u) (User_full_name u) (User_email u) s (User_role u)
      else if (c =? "role")%string then mkUser (User_id u) (User_full_name u) (User_email u) (User_password u) s
      else u
  | _ => u
  end.

Definition mem_string (s : string) (l : list string) : bool :=
  existsb (String.eqb s) l.

(** [models.User.<name>]: the column when the class declares it. *)
Definition User_attr (name : string) : option string :=
  if mem_string name User_columns then Some name else None.

(** ** The store *)

(** The two tables and their auto-increment counters. *)
Record DB := mkDB {
  users : list User;
  attendance : list Attendance;
  users_seq : Z;
  attendance_seq : Z
}.

Inductive exn :=
| HTTPException (status_code : Z) (detail : string)
| AttributeError (msg : string)
| ValueError
| ZeroDivisionError
| IntegrityError.

Inductive outcome (A : Type) :=
| Returned (a : A)
| Raised (e : exn).
Arguments Returned {A} a.
Arguments Raised {A} e.

(** Pending work of a session, flushed by [db.commit()]. *)
Inductive write :=
| InsertUser (u : User)
| InsertAttendance (a : Attendance)
| UpdateUser (pk : Z) (c : string) (v : value)
| DeleteAttendanceWhere (p : Attendance -> bool)
| DeleteUser (pk : Z).

(** No stored row agrees with the new one on all columns of [cols]. *)
Definition unique_ok {R} (get : string -> R -> value) (rows : list R) (r : R)
  (cols : list string) : bool :=
  negb (existsb (fun r' => forallb (fun c => value_eqb (get c r') (get c r)) cols) rows).

Definition set_User_id (i : Z) (u : User) : User :=
  mkUser i (User_full_name u) (User_email u) (User_password u) (User_role u).

Definition set_Attendance_id (i : Z) (a : Attendance) : Attendance :=
  mkAttendance i (Attendance_user_id a) (Attendance_date a)
    (Attendance_check_in a) (Attendance_status a).

(** One statement against the store, under the declared constraints:
    the id of an inserted row comes from the table's counter, uniqueness
    is what [User_unique] and [Attendance_unique] declare, and
    [attendance.user_id] is a foreign key to [users.id]. *)
Definition apply_write (w : write) (db : DB) : outcome DB :=
  match w with
  | InsertUser u0 =>
      let u := set_User_id (users_seq db) u0 in
      if forallb (unique_ok User_get (users db) u) User_unique
      then Returned (mkDB (users db ++ [u]) (attendance db)
                          (users_seq db + 1) (attendance_seq db))
      else Raised IntegrityError
  | InsertAttendance a0 =>
      let a := set_Attendance_id (attendance_seq db) a0 in
      if forallb (unique_ok Attendance_get (attendance db) a) Attendance_unique
         && existsb (fun u => User_id u =? Attendance_user_id a) (users db)
      then Returned (mkDB (users db) (attendance db ++ [a])
                          (users_seq db) (attendance_seq db + 1))
      else Raised IntegrityError
  | UpdateUser pk c v =>
      Returned (mkDB (map (fun u => if User_id u =? pk then User_set c v u else u) (users db))
                     (attendance db) (users_seq db) (attendance_seq db))
  | DeleteAttendanceWhere p =>
      Returned (mkDB (users db) (filter (fun a => negb (p a)) (attendance db))
                     (users_seq db) (attendance_seq db))
  | DeleteUser pk =>
      if existsb (fun a => Attendance_user_id a =? pk) (attendance db)
      then Raised IntegrityError
      else Returned (mkDB (filter (fun u => negb (User_id u =? pk)) (users db))
                          (attendance db) (users_seq db) (attendance_seq db))
  end.

Fixpoint apply_writes (ws : list write) (db : DB) : outcome DB :=
  match ws with
  | [] => Returned db
  | w :: r =>
      match apply_write w db with
      | Returned db' => apply_writes r db'
      | Raised e => Raised e
      end
  end.

(** ** Handler programs *)

(** What a handler does with its session, in the order it does it.  A query
    sees the committed store ([autoflush=False]); [Add], [SetAttr],
    [BulkDelete] and [Delete] queue work that [Commit] flushes. *)
Inductive prog (A : Type) : Type :=
| Ret (a : A)
| Raise (e : exn)
| QueryUsers (p : User -> bool) (k : list User -> prog A)
| QueryAttendance (p : Attendance -> bool) (k : list Attendance -> prog A)
| AddUser (u : User) (k : prog A)
| AddAttendance (a : Attendance) (k : prog A)
| SetAttr (u : User) (name : string) (v : value) (k : prog A)
| BulkDelete (p : Attendance -> bool) (k : prog A)
| Delete (u : User) (k : prog A)
| Commit (k : prog A).
Arguments Ret {A} a.
Arguments Raise {A} e.
Arguments QueryUsers {A} p k.
Arguments QueryAttendance {A} p k.
Arguments AddUser {A} u k.
Arguments AddAttendance {A} a k.
Arguments SetAttr {A} u name v k.
Arguments BulkDelete {A} p k.
Arguments Delete {A} u k.
Arguments Commit {A} k.

Fixpoint bind {A B} (m : prog A) (f : A -> prog B) : prog B :=
  match m with
  | Ret a => f a
  | Raise e => Raise e
  | QueryUsers p k => QueryUsers p (fun l => bind (k l) f)
  | QueryAttendance p k => QueryAttendance p (fun l => bind (k l) f)
  | AddUser u k => AddUser u (bind k f)
  | AddAttendance a k => AddAttendance a (bind k f)
  | SetAttr u n v k => SetAttr u n v (bind k f)
  | BulkDelete p k => BulkDelete p (bind k f)
  | Delete u k => Delete u (bind k f)
  | Commit k => Commit (bind k f)
  end.

Declare Scope prog_scope.
Delimit Scope prog_scope with prog.
Notation "x <- m ;; k" := (bind m (fun x => k))
  (at level 61, m at next level, right associativity) : prog_scope.

(** [query.filter(...).first()] and [query.filter(...).all()]. *)
Definition first_user (p : User -> bool) : prog (option User) :=
  QueryUsers p (fun l => Ret (hd_error l)).
Definition all_users (p : User -> bool) : prog (list User) :=
  QueryUsers p Ret.
Definition first_attendance (p : Attendance -> bool) : prog (option Attendance) :=
  QueryAttendance p (fun l => Ret (hd_error l)).
Definition all_attendance (p : Attendance -> bool) : prog (list Attendance) :=
  QueryAttendance p Ret.

(** Setting an attribute on a loaded [User]: a declared column makes the
    row dirty; any other name only lands in the instance's [__dict__] and
    is never flushed. *)
Definition setattr_write (u : User) (name : string) (v : value) : list write :=
  if mem_string name User_columns then [UpdateUser (User_id u) name v] else [].

(** A request in flight: what is left of the handler, and its session's
    pending writes. *)
Record thread (A : Type) := mkThread { code : prog A; pending : list write }.
Arguments mkThread {A} code pending.
Arguments code {A} t.
Arguments pending {A} t.

(** One database operation of a request.  A raised exception closes the
    session without committing. *)
Definition step {A} (t : thread A) (db : DB) : thread A * DB :=
  match code t with
  | Ret a => (t, db)
  | Raise e => (t, db)
  | QueryUsers p k => (mkThread (k (filter p (users db))) (pending t), db)
  | QueryAttendance p k => (mkThread (k (filter p (attendance db))) (pending t), db)
  | AddUser u k => (mkThread k (pending t ++ [InsertUser u]), db)
  | AddAttendance a k => (mkThread k (pending t ++ [InsertAttendance a]), db)
  | SetAttr u n v k => (mkThread k (pending t ++ setattr_write u n v), db)
  | BulkDelete p k => (mkThread k (pending t ++ [DeleteAttendanceWhere p]), db)
  | Delete u k => (mkThread k (pending t ++ [DeleteUser (User_id u)]), db)
  | Commit k =>
      match apply_writes (pending t) db with
      | Returned db' => (mkThread k [], db')
      | Raised e => (mkThread (Raise e) [], db)
      end
  end.

(** Running one request to its end: the structural recursion that [step]
    unrolls.  The result carries the session's pending writes and the
    committed store. *)
Fixpoint exec {A} (p : prog A) (pend : list write) (db : DB)
  : outcome A * list write * DB :=
  match p with
  | Ret a => (Returned a, pend, db)
  | Raise e => (Raised e, pend, db)
  | QueryUsers f k => exec (k (filter f (users db))) pend db
  | QueryAttendance f k => exec (k (filter f (attendance db))) pend db
  | AddUser u k => exec k (pend ++ [InsertUser u]) db
  | AddAttendance a k => exec k (pend ++ [InsertAttendance a]) db
  | SetAttr u n v k => exec k (pend ++ setattr_write u n v) db
  | BulkDelete f k => exec k (pend ++ [DeleteAttendanceWhere f]) db
  | Delete u k => exec k (pend ++ [DeleteUser (User_id u)]) db
  | Commit k =>
      match apply_writes pend db with
      | Returned db' => exec k [] db'
      | Raised e => (Raised e, [], db)
      end
  end.

(** A request served alone, with a fresh session; what was not committed
    when the handler ends is dropped with the session. *)
Definition run {A} (p : prog A) (db : DB) : outcome A * DB :=
  let '(r, _, db') := exec p [] db in (r, db').

(** Two requests served concurrently.  The schedule says which request
    performs its next database operation ([true]: the first); when the
    schedule is used up the first request finishes, then the second. *)
Fixpoint run2 {A B} (sched : list bool) (t1 : thread A) (t2 : thread B) (db : DB)
  : (outcome A * outcome B) * DB :=
  match sched with
  | [] =>
      let '(r1, _, db1) := exec (code t1) (pending t1) db in
      let '(r2, _, db2) := exec (code t2) (pending t2) db1 in
      ((r1, r2), db2)
  | true :: s => let '(t1', db') := step t1 db in run2 s t1' t2 db'
  | false :: s => let '(t2', db') := step t2 db in run2 s t1 t2' db'
  end.

(** ** Python arithmetic used by [attendance_percentage] *)

(** A finite binary64 float is carried by its exact value, a rational in
    lowest terms.  Every float operation of the handler is the exact
    result rounded to the nearest double, ties to even ([rnd64]).  The
    operands here are list lengths and percentages, far from overflow;
    results below the normal range round on the subnormal grid. *)

(** Nearest integer, ties to even. *)
Definition round_half_even (q : Q) : Z :=
  let n := Qnum q in
  let d := Zpos (Qden q) in
  let f := n / d in
  match 2 * (n mod d) ?= d with
  | Lt => f
  | Gt => f + 1
  | Eq => if Z.even f then f else f + 1
  end.

Definition pow2 (e : Z) : Q := Qpower (2 # 1) e.

(** The exponent [e] of the last place of a double near [q]:
    2^52 <= |q| / 2^e < 2^53, and never below -1074. *)
Definition ulp_exp (q : Q) : Z :=
  let e0 := Z.log2 (Z.abs (Qnum q)) - Z.log2 (Zpos (Qden q)) - 52 in
  let e := if Qle_bool (pow2 52) (Qabs q / pow2 e0) then e0 else e0 - 1 in
  Z.max e (-1074).

Definition rnd64 (q : Q) : Q :=
  let q := Qred q in
  if Qnum q =? 0 then 0%Q
  else
    let e := ulp_exp q in
    Qred (inject_Z (round_half_even (q / pow2 e)) * pow2 e).

(** [float(n)] for an int. *)
Definition float_of_int (n : Z) : Q := rnd64 (inject_Z n).

(** float [*]. *)
Definition fmul (x y : Q) : Q := rnd64 (x * y).

(** [round(x, 2)] on a float: the exact value of [x] is rounded to two
    decimals, ties to even, and the decimal is converted back to the
    nearest double. *)
Definition round2 (x : Q) : Q :=
  rnd64 (inject_Z (round_half_even (x * inject_Z 100)) / inject_Z 100).

(** [len(l)]. *)
Definition len {X} (l : list X) : Z := Z.of_nat (List.length l).

(** [a / b] on ints: [ZeroDivisionError] for a zero divisor, else the
    exact quotient rounded to the nearest double. *)
Definition truediv (a b : Z) : prog Q :=
  if b =? 0 then Raise ZeroDivisionError
  else Ret (rnd64 (Qmake (a * Z.sgn b) (Z.to_pos (Z.abs b)))).

(** [for x in l: results.append(body(x))]. *)
Fixpoint for_each {X B} (l : list X) (body : X -> prog B) : prog (list B) :=
  match l with
  | [] => Ret []
  | x :: r =>
      (y <- body x ;;
       ys <- for_each r body ;;
       Ret (y :: ys))%prog
  end.

(** [str(d)] for a date: ISO format, zero padded. *)
Definition digit (n : Z) : ascii := ascii_of_nat (48 + Z.to_nat (n mod 10)).

Definition str_date (d : date) : string :=
  String (digit (year d / 1000)) (String (digit (year d / 100))
  (String (digit (year d / 10)) (String (digit (year d))
  (String "-" (String (digit (month d / 10)) (String (digit (month d))
  (String "-" (String (digit (day d / 10)) (String (digit (day d))
  EmptyString))))))))).

(** [check_in.strftime("%H:%M:%S")]: two digits each. *)
Definition strftime_HMS (t : time) : string :=
  String (digit (hour t / 10)) (String (digit (hour t))
  (String ":" (String (digit (minute t / 10)) (String (digit (minute t))
  (String ":" (String (digit (second t / 10)) (String (digit (second t))
  EmptyString))))))).

(** Dates are ordered as the tuples (year, month, day). *)
Definition date_cmp (a b : date) : comparison :=
  match year a ?= year b with
  | Eq => match month a ?= month b with
          | Eq => day a ?= day b
          | c => c
          end
  | c => c
  end.

Definition date_leb (a b : date) : bool :=
  match date_cmp a b with Gt => false | _ => true end.

(** [order_by(Attendance.date.desc())]: the rows by date, latest first.
    Rows of one date are left in table order (the engine is free there). *)
Fixpoint insert_desc (a : Attendance) (l : list Attendance) : list Attendance :=
  match l with
  | [] => [a]
  | b :: r =>
      if date_leb (Attendance_date b) (Attendance_date a)
      then a :: b :: r
      else b :: insert_desc a r
  end.

Fixpoint order_by_date_desc (l : list Attendance) : list Attendance :=
  match l with
  | [] => []
  | a :: r => insert_desc a (order_by_date_desc r)
  end.

(** ** [ipaddress] *)

Inductive ip_addr :=
| IPv4Address (ip : Z)
| IPv6Address (ip : Z).

Record ip_net := mkNet { net_version : Z; network_address : Z; netmask : Z }.

Definition ip_version (a : ip_addr) : Z :=
  match a with IPv4Address _ => 4 | IPv6Address _ => 6 end.

Definition ip_int (a : ip_addr) : Z :=
  match a with IPv4Address n => n | IPv6Address n => n end.

(** [addr in net]: false across versions, else the masked address is the
    network address. *)
Definition ip_in (a : ip_addr) (n : ip_net) : bool :=
  if negb (net_version n =? ip_version a) then false
  else Z.land (ip_int a) (netmask n) =? network_address n.

(** [ipaddress.ip_network("127.0.0.1/32")]. *)
Definition loopback32 : ip_net :=
  mkNet 4 (((127 * 256 + 0) * 256 + 0) * 256 + 1) (Z.ones 32).

(** ** [app/schemas.py] *)

Record UserCreate := mkUserCreate {
  UserCreate_full_name : string;
  UserCreate_email : string;
  UserCreate_password : string;
  UserCreate_role : string
}.

Definition message (s : string) : json := JObj [("message", JStr s)].

(** ** [app/main.py] *)

Section Handlers.

(** [app/auth.py]. *)
Variable hash_password : string -> string.
Variable verify_password : string -> string -> bool.
Variable create_access_token : string -> string -> string.

(** [jwt.decode(token, SECRET_KEY, algorithms=[ALGORITHM])] followed by
    [payload.get("sub")]: [None] when decoding raises [JWTError],
    [Some None] when the payload has no subject. *)
Variable jwt_decode_sub : string -> option (option string).

(** [ipaddress.ip_address(host)]: [None] when it raises [ValueError]. *)
Variable ip_address : string -> option ip_addr.

Local Open Scope prog_scope.

Definition create_default_admin : prog unit :=
  admin_exists <- first_user (fun u => (User_role u =? "admin")%string) ;;
  match admin_exists with
  | None =>
      AddUser (mkUser 0 "System Admin" "admin@school.com"
                 (hash_password "Admin@123") "admin")
        (Commit (Ret tt))
  | Some _ => Ret tt
  end.

Definition register (user : UserCreate) : prog json :=
  if (lower (UserCreate_role user) =? "admin")%string
  then Raise (HTTPException 403 "Admin registration not allowed")
  else
    existing_user <- first_user (fun u => (User_email u =? UserCreate_email user)%string) ;;
    match existing_user with
    | Some _ => Raise (HTTPException 400 "Email already registered")
    | None =>
        let new_user := mkUser 0 (UserCreate_full_name user) (UserCreate_email user)
                          (hash_password (UserCreate_password user)) "staff" in
        (* [db.refresh(new_user)] re-reads the inserted row *)
        AddUser new_user (Commit (Ret (message "Staff registered successfully")))
    end.

Definition login (username password : string) : prog json :=
  db_user <- first_user (fun u => (User_email u =? username)%string) ;;
  match db_user with
  | None => Raise (HTTPException 400 "Invalid credentials")
  | Some db_user =>
      if negb (verify_password password (User_password db_user))
      then Raise (HTTPException 400 "Invalid credentials")
      else
        let access_token := create_access_token (User_email db_user) (User_role db_user) in
        Ret (JObj [("access_token", JStr access_token);
                   ("token_type", JStr "bearer");
                   ("role", JStr (User_role db_user))])
  end.

Definition credentials_exception : exn :=
  HTTPException 401 "Could not validate credentials".

Definition get_current_user (token : string) : prog User :=
  match jwt_decode_sub token with
  | None => Raise credentials_exception
  | Some None => Raise credentials_exception
  | Some (Some email) =>
      user <- first_user (fun u => (User_email u =? email)%string) ;;
      match user with
      | None => Raise credentials_exception
      | Some user => Ret user
      end
  end.

Definition get_me (current_user : User) : prog json :=
  Ret (JObj [("full_name", JStr (User_full_name current_user));
             ("role", JStr (User_role current_user))]).

(** [host] is [request.client.host]; [now] is what [datetime.now()]
    returns when the handler reaches it. *)
Definition mark_attendance (host : string) (now : datetime) (current_user : User)
  : prog json :=
  let allowed_network := loopback32 in
  match ip_address host with
  | None => Raise ValueError
  | Some client_ip =>
      if negb (ip_in client_ip allowed_network)
      then Raise (HTTPException 403 "Attendance allowed only on school network")
      else if negb (User_role current_user =? "staff")%string
      then Raise (HTTPException 403 "Only staff can mark attendance")
      else
        let today := dt_date now in
        existing <- first_attendance
                      (fun a => (Attendance_user_id a =? User_id current_user)
                                && date_eqb (Attendance_date a) today) ;;
        match existing with
        | Some _ => Raise (HTTPException 400 "Already marked today")
        | None =>
            let late_time := time_hm 7 30 in
            let close_time := time_hm 8 0 in
            if time_gt (dt_time now) close_time
            then Raise (HTTPException 403 "Attendance closed for today")
            else
              let status := if time_gt (dt_time now) late_time then "Late" else "Present" in
              let attendance := mkAttendance 0 (User_id current_user) today now status in
              AddAttendance attendance
                (Commit (Ret (JObj [("message", JStr "Attendance marked");
                                    ("status", JStr status)])))
        end
  end.

Definition mem_Z (x : Z) (l : list Z) : bool := existsb (Z.eqb x) l.

Definition user_json (u : User) : json :=
  JObj [("id", JInt (User_id u));
        ("full_name", JStr (User_full_name u));
        ("email", JStr (User_email u))].

(** [today] is [datetime.now().date()]. *)
Definition get_absentees (today : date) (current_user : User) : prog json :=
  if negb (User_role current_user =? "admin")%string
  then Raise (HTTPException 403 "Admin access required")
  else
    staff_users <- all_users (fun u => (User_role u =? "staff")%string) ;;
    attended <- all_attendance (fun a => date_eqb (Attendance_date a) today) ;;
    let attended_ids := map Attendance_user_id attended in
    let absentees :=
      map user_json
        (filter (fun u => negb (mem_Z (User_id u) attended_ids)) staff_users) in
    Ret (JObj [("date", JStr (str_date today)); ("absentees", JList absentees)]).

Definition attendance_json (record : Attendance) : json :=
  JObj [("date", JStr (str_date (Attendance_date record)));
        ("check_in", JStr (strftime_HMS (dt_time (Attendance_check_in record))));
        ("status", JStr (Attendance_status record))].

Definition my_attendance (current_user : User) : prog json :=
  if negb (User_role current_user =? "staff")%string
  then Raise (HTTPException 403 "Staff access required")
  else
    records <- QueryAttendance
                 (fun a => Attendance_user_id a =? User_id current_user)
                 (fun l => Ret (order_by_date_desc l)) ;;
    Ret (JList (map attendance_json records)).

(** [token] is what [secrets.token_urlsafe(32)] returns. *)
Definition forgot_password (email token : string) : prog json :=
  user <- first_user (fun u => (User_email u =? email)%string) ;;
  match user with
  | None => Raise (HTTPException 404 "Email not found")
  | Some user =>
      SetAttr user "reset_token" (VStr token)
        (Commit (Ret (JObj [("message", JStr "Reset token generated");
                            ("reset_token", JStr token)])))
  end.

Definition reset_password (token new_password : string) : prog json :=
  match User_attr "reset_token" with
  | None => Raise (AttributeError "type object 'User' has no attribute 'reset_token'")
  | Some c =>
      user <- first_user (fun u => value_eqb (User_get c u) (VStr token)) ;;
      match user with
      | None => Raise (HTTPException 400 "Invalid token")
      | Some user =>
          SetAttr user "password" (VStr (hash_password new_password))
            (SetAttr user "reset_token" VNull
               (Commit (Ret (message "Password reset successful"))))
      end
  end.

(** [today] is [date.today()]. *)
Definition daily_summary (today : date) (current_user : User) : prog json :=
  if negb (User_role current_user =? "admin")%string
  then Raise (HTTPException 403 "Admins-only")
  else
    staff_users <- all_users (fun u => (User_role u =? "staff")%string) ;;
    present <- all_attendance
                 (fun a => date_eqb (Attendance_date a) today
                           && (Attendance_status a =? "Present")%string) ;;
    late <- all_attendance
              (fun a => date_eqb (Attendance_date a) today
                        && (Attendance_status a =? "Late")%string) ;;
    let absent_count := len staff_users - len present - len late in
    Ret (JObj [("total_staff", JInt (len staff_users));
               ("present_count", JInt (len present));
               ("late_count", JInt (len late));
               ("absent_count", JInt absent_count)]).

Definition get_all_staff (current_user : User) : prog json :=
  if negb (User_role current_user =? "admin")%string
  then Raise (HTTPException 403 "Admins-only")
  else
    staff <- all_users (fun u => (User_role u =? "staff")%string) ;;
    Ret (JList (map user_json staff)).

Definition delete_staff (staff_id : Z) (current_user : User) : prog json :=
  if negb (User_role current_user =? "admin")%string
  then Raise (HTTPException 403 "Admins only")
  else
    staff <- first_user (fun u => (User_id u =? staff_id)
                                  && (User_role u =? "staff")%string) ;;
    match staff with
    | None => Raise (HTTPException 404 "Staff not found")
    | Some staff =>
        BulkDelete (fun a => Attendance_user_id a =? staff_id)
          (Delete staff
             (Commit (Ret (message "Staff deleted successfully"))))
    end.

(** The body of the loop of [attendance_percentage], for one staff user. *)
Definition percentage_entry (user : User) : prog json :=
  records <- all_attendance (fun a => Attendance_user_id a =? User_id user) ;;
  let total_days := len records in
  let present_days :=
    len (filter (fun r => (Attendance_status r =? "Present")%string) records) in
  let late_days :=
    len (filter (fun r => (Attendance_status r =? "Late")%string) records) in
  let attended_days := present_days + late_days in
  percentage <-
    (if total_days >? 0
     then q <- truediv attended_days total_days ;;
          Ret (JFloat (round2 (fmul q (float_of_int 100))))
     else Ret (JInt 0)) ;;
  Ret (JObj [("full_name", JStr (User_full_name user));
             ("present_days", JInt present_days);
             ("late_days", JInt late_days);
             ("attendance_percentage", percentage)]).

Definition attendance_percentage (current_user : User) : prog json :=
  if negb (User_role current_user =? "admin")%string
  then Raise (HTTPException 403 "Admins only")
  else
    staff_users <- all_users (fun u => (User_role u =? "staff")%string) ;;
    results <- for_each staff_users percentage_entry ;;
    Ret (JList results).

(** An endpoint that depends on [get_current_user]: the bearer token is
    resolved first, then the handler runs in the same session. *)
Definition with_current_user {A} (token : string) (h : User -> prog A) : prog A :=
  current_user <- get_current_user token ;;
  h current_user.

End Handlers.

(** ** A concrete instance of the parameters, for the worked examples *)

Module Sample.

Definition hash_password (p : string) : string := "h:" ++ p.
Definition verify_password (p h : string) : bool := (h =? "h:" ++ p)%string.
Definition create_access_token (sub role : string) : string := "t:" ++ sub.

Definition jwt_decode_sub (token : string) : option (option string) :=
  if prefix "t:" token then Some (Some (substring 2 (String.length token - 2) token))
  else None.

Definition ip_address (host : string) : option ip_addr :=
  if (host =? "127.0.0.1")%string then Some (IPv4Address 2130706433)
  else if (host =? "10.0.0.5")%string then Some (IPv4Address 167772165)
  else if (host =? "::1")%string then Some (IPv6Address 1)
  else None.

Definition ama : User := mkUser 1 "Ama Owusu" "ama@school.com" "h:pw1" "staff".
Definition kofi : User := mkUser 2 "Kofi Mensah" "kofi@school.com" "h:pw2" "staff".
Definition root : User := mkUser 3 "System Admin" "admin@school.com" "h:Admin@123" "admin".

Definition d1 : date := mkdate 2024 3 4.
Definition at_time (h m s : Z) : datetime := mkdatetime d1 (mktime h m s 0).

Definition db0 : DB := mkDB [ama; kofi; root] [] 4 1.

(** A store in which one of Ama's three records carries a status the
    handlers never write. *)
Definition db2 : DB :=
  mkDB [ama; kofi; root]
    [mkAttendance 1 1 (mkdate 2024 3 1) (mkdatetime (mkdate 2024 3 1) (mktime 7 5 0 0)) "Present";
     mkAttendance 2 1 (mkdate 2024 3 2) (mkdatetime (mkdate 2024 3 2) (mktime 7 45 0 0)) "Late";
     mkAttendance 3 1 (mkdate 2024 3 3) (mkdatetime (mkdate 2024 3 3) (mktime 9 0 0 0)) "Excused"]
    4 4.

(** [db0] after Ama checked in on time. *)
Definition db1 : DB :=
  mkDB [ama; kofi; root] [mkAttendance 1 1 d1 (at_time 7 10 0) "Present"] 4 2.

End Sample.

(** * Vocabulary of the statements *)

(** ** The store and its history *)

(** Auto-increment counters are ahead of every stored id. *)
Definition fresh_ids (db : DB) : Prop :=
  Forall (fun u => User_id u < users_seq db) (users db)
  /\ Forall (fun a => Attendance_id a < attendance_seq db) (attendance db).

(** The endpoints of [main.py] that reach the store.  The template pages
    and [/my-attendance] only read. *)
Inductive request :=
| Startup
| PostRegister (user : UserCreate)
| PostLogin (username password : string)
| GetMe (token : string)
| PostMarkAttendance (token host : string) (now : datetime)
| GetAbsentees (token : string) (today : date)
| PostForgotPassword (email token : string)
| PostResetPassword (token new_password : string)
| GetDailySummary (token : string) (today : date)
| GetAllStaff (token : string)
| DeleteDeleteStaff (token : string) (staff_id : Z)
| GetAttendancePercentage (token : string).

Section Server.

Variable hash_password : string -> string.
Variable verify_password : string -> string -> bool.
Variable create_access_token : string -> string -> string.
Variable jwt_decode_sub : string -> option (option string).
Variable ip_address : string -> option ip_addr.

Definition handler (r : request) : prog json :=
  match r with
  | Startup => bind (create_default_admin hash_password) (fun _ => Ret (JObj []))
  | PostRegister user => register hash_password user
  | PostLogin username password =>
      login verify_password create_access_token username password
  | GetMe token => with_current_user jwt_decode_sub token get_me
  | PostMarkAttendance token host now =>
      with_current_user jwt_decode_sub token (mark_attendance ip_address host now)
  | GetAbsentees token today =>
      with_current_user jwt_decode_sub token (get_absentees today)
  | PostForgotPassword email token => forgot_password email token
  | PostResetPassword token new_password =>
      reset_password hash_password token new_password
  | GetDailySummary token today =>
      with_current_user jwt_decode_sub token (daily_summary today)
  | GetAllStaff token => with_current_user jwt_decode_sub token get_all_staff
  | DeleteDeleteStaff token staff_id =>
      with_current_user jwt_decode_sub token (delete_staff staff_id)
  | GetAttendancePercentage token =>
      with_current_user jwt_decode_sub token attendance_percentage
  end.

Definition serve (r : request) (db : DB) : outcome json * DB := run (handler r) db.

(** The store after a list of requests, each served to its end before the
    next starts. *)
Fixpoint serve_all (rs : list request) (db : DB) : DB :=
  match rs with
  | [] => db
  | r :: rest => serve_all rest (snd (serve r db))
  end.

End Server.

(** What identifies a check-in: the user and the calendar date. *)
Definition user_day (a : Attendance) : Z * date :=
  (Attendance_user_id a, Attendance_date a).

(** What holds of the store while requests are served one at a time. *)
Record consistent (db : DB) : Prop := mkConsistent {
  c_fresh : fresh_ids db;
  c_pk : NoDup (map User_id (users db));
  c_owner : forall a, In a (attendance db) ->
            exists u, In u (users db) /\ User_id u = Attendance_user_id a
                      /\ User_role u = "staff";
  c_once : NoDup (map user_day (attendance db));
  c_status : forall a, In a (attendance db) ->
             Attendance_status a = "Present" \/ Attendance_status a = "Late"
}.

Definition empty_db : DB := mkDB [] [] 1 1.

(** A program that never commits. *)
Inductive no_commit {A : Type} : prog A -> Prop :=
| nc_Ret a : no_commit (Ret a)
| nc_Raise e : no_commit (Raise e)
| nc_QueryUsers p k : (forall l, no_commit (k l)) -> no_commit (QueryUsers p k)
| nc_QueryAttendance p k : (forall l, no_commit (k l)) -> no_commit (QueryAttendance p k)
| nc_AddUser u k : no_commit k -> no_commit (AddUser u k)
| nc_AddAttendance a k : no_commit k -> no_commit (AddAttendance a k)
| nc_SetAttr u n v k : no_commit k -> no_commit (SetAttr u n v k)
| nc_BulkDelete p k : no_commit k -> no_commit (BulkDelete p k)
| nc_Delete u k : no_commit k -> no_commit (Delete u k).

(** ** Check-in times *)

Definition close_of_day : Z := time_of_day (time_hm 8 0).
Definition late_of_day : Z := time_of_day (time_hm 7 30).

(** The record a check-in at [now] stores for [u]. *)
Definition check_in_record (db : DB) (u : User) (now : datetime) : Attendance :=
  mkAttendance (attendance_seq db) (User_id u) (dt_date now) now
    (if late_of_day <? time_of_day (dt_time now) then "Late" else "Present").

(** ** Two overlapping check-ins *)

(** The two check-ins of one user on one day, overlapping: each reads the
    attendance table before the other commits. *)
Definition racing_check_ins : outcome json * outcome json * DB :=
  run2 [true; false]
    (mkThread (mark_attendance Sample.ip_address "127.0.0.1" (Sample.at_time 7 10 0)
                 Sample.ama) [])
    (mkThread (mark_attendance Sample.ip_address "127.0.0.1" (Sample.at_time 7 10 1)
                 Sample.ama) [])
    Sample.db0.

Definition marked (status : string) : json :=
  JObj [("message", JStr "Attendance marked"); ("status", JStr status)].

(** ** Attendance counts *)

(** The attendance records of a user, and how many carry a status. *)
Definition records_of (db : DB) (u : User) : list Attendance :=
  filter (fun a => Attendance_user_id a =? User_id u) (attendance db).

Definition count_status (s : string) (l : list Attendance) : Z :=
  len (filter (fun r => (Attendance_status r =? s)%string) l).

(** What C7 says of the row of one staff user: the counts are those of
    the user's records, the percentage is the int 0 when there is no
    record, and otherwise a float that is the nearest double to a number
    with two decimals and lies within half a hundredth, up to float
    error, of the exact percentage. *)
Definition percentage_row (db : DB) (u : User) (row : json) : Prop :=
  let present := count_status "Present" (records_of db u) in
  let late := count_status "Late" (records_of db u) in
  let total := len (records_of db u) in
  exists pct,
    row = JObj [("full_name", JStr (User_full_name u));
                ("present_days", JInt present);
                ("late_days", JInt late);
                ("attendance_percentage", pct)]
    /\ (total = 0 -> pct = JInt 0)
    /\ (0 < total ->
        exists (x : Q) (n : Z),
          pct = JFloat x
          /\ x = rnd64 (inject_Z n / inject_Z 100)
          /\ (Qabs (x - inject_Z (100 * (present + late)) / inject_Z total)
              <= (1 # 200) + pow2 (-43))%Q).

(** ** What a request does to the store *)

(** The ways a request served alone can leave the store: untouched, with
    the default admin added, with a newly registered staff user added,
    with one check-in of a stored staff user added, or with a staff user
    and that user's records removed. *)
Inductive effect (db : DB) : request -> DB -> Prop :=
| eff_none r : effect db r db
| eff_admin u db' :
    User_role u = "admin" ->
    (forall v, In v (users db) -> User_role v <> "admin") ->
    apply_write (InsertUser u) db = Returned db' ->
    effect db Startup db'
| eff_register user u db' :
    User_role u = "staff" ->
    User_email u = UserCreate_email user ->
    (forall v, In v (users db) -> User_email v <> UserCreate_email user) ->
    apply_write (InsertUser u) db = Returned db' ->
    effect db (PostRegister user) db'
| eff_check_in token host now u status db' :
    In u (users db) ->
    User_role u = "staff" ->
    (forall a, In a (attendance db) ->
       (Attendance_user_id a =? User_id u)
       && date_eqb (Attendance_date a) (dt_date now) = false) ->
    status = "Present" \/ status = "Late" ->
    apply_write (InsertAttendance (mkAttendance 0 (User_id u) (dt_date now) now status)) db
      = Returned db' ->
    effect db (PostMarkAttendance token host now) db'
| eff_delete token staff_id s :
    In s (users db) ->
    User_id s = staff_id ->
    User_role s = "staff" ->
    effect db (DeleteDeleteStaff token staff_id)
      (mkDB (filter (fun u => negb (User_id u =? staff_id)) (users db))
         (filter (fun a => negb (Attendance_user_id a =? staff_id)) (attendance db))
         (users_seq db) (attendance_seq db)).

(** [a] is not dated before [b]: the order of [/my-attendance]. *)
Definition not_earlier (a b : Attendance) : Prop :=
  date_leb (Attendance_date b) (Attendance_date a) = true.

(** An outcome that is neither a constraint violation of the store nor a
    division by zero: a result, an [HTTPException], the [ValueError] of
    the address parser or the [AttributeError] of [reset_password]. *)
Definition no_store_error (o : outcome json) : Prop :=
  match o with
  | Raised IntegrityError => False
  | Raised ZeroDivisionError => False
  | _ => True
  end.

(** A handler that refuses, with a 403 and before any database
    operation, every caller whose role is not [role]. *)
Definition gated (role : string) (h : User -> prog json) : Prop :=
  forall u, User_role u <> role ->
            exists detail, forall pend db,
                exec (h u) pend db = (Raised (HTTPException 403 detail), pend, db).

(** A program that never assigns the [email] attribute of a user, and a
    session whose pending writes do not update that column. *)
Inductive keeps_emails {A : Type} : prog A -> Prop :=
| ke_Ret a : keeps_emails (Ret a)
| ke_Raise e : keeps_emails (Raise e)
| ke_QueryUsers p k : (forall l, keeps_emails (k l)) -> keeps_emails (QueryUsers p k)
| ke_QueryAttendance p k :
    (forall l, keeps_emails (k l)) -> keeps_emails (QueryAttendance p k)
| ke_AddUser u k : keeps_emails k -> keeps_emails (AddUser u k)
| ke_AddAttendance a k : keeps_emails k -> keeps_emails (AddAttendance a k)
| ke_SetAttr u n v k : n <> "email" -> keeps_emails k -> keeps_emails (SetAttr u n v k)
| ke_BulkDelete p k : keeps_emails k -> keeps_emails (BulkDelete p k)
| ke_Delete u k : keeps_emails k -> keeps_emails (Delete u k)
| ke_Commit k : keeps_emails k -> keeps_emails (Commit k).

Definition write_keeps_emails (w : write) : Prop :=
  match w with
  | UpdateUser _ c _ => c <> "email"
  | _ => True
  end.

(** The staff users [get_absentees] lists for a day. *)
Definition absent_users (db : DB) (today : date) : list User :=
  filter (fun u => negb (mem_Z (User_id u)
                           (map Attendance_user_id
                              (filter (fun a => date_eqb (Attendance_date a) today)
                                 (attendance db)))))
    (filter (fun u => (User_role u =? "staff")%string) (users db)).

(** The endpoints behind the admin gate, with their bearer token. *)
Definition admin_token (r : request) : option string :=
  match r with
  | GetAbsentees token _ => Some token
  | GetDailySummary token _ => Some token
  | GetAllStaff token => Some token
  | DeleteDeleteStaff token _ => Some token
  | GetAttendancePercentage token => Some token
  | _ => None
  end.

(** * Properties *)

(** ** Times of day *)

Lemma time_gt_later (a b : time) :
  valid_time a -> valid_time b ->
  (time_gt a b = true <-> time_of_day b < time_of_day a).
Proof.
  unfold valid_time, time_gt, time_cmp, time_of_day.
  intros Ha Hb.
  destruct (Z.compare_spec (hour a) (hour b));
    [destruct (Z.compare_spec (minute a) (minute b));
       [destruct (Z.compare_spec (second a) (second b));
          [destruct (Z.compare_spec (microsecond a) (microsecond b))| |]| |]| |];
    split; intro; try discriminate; try reflexivity; try lia.
Qed.

(** ** Running programs *)

Lemma exec_bind {A B} (m : prog A) (f : A -> prog B) :
  forall pend db,
    exec (bind m f) pend db =
    match exec m pend db with
    | (Returned a, pend', db') => exec (f a) pend' db'
    | (Raised e, pend', db') => (Raised e, pend', db')
    end.
Proof.
  induction m; intros pend db; simpl; auto.
  destruct (apply_writes pend db); auto.
Qed.

(** [step] performs the first database operation of [exec]. *)
Lemma exec_step {A} (t : thread A) (db : DB) :
  exec (code t) (pending t) db
  = exec (code (fst (step t db))) (pending (fst (step t db))) (snd (step t db)).
Proof.
  destruct t as [p pend]. unfold step. simpl.
  destruct p; simpl; auto.
  destruct (apply_writes pend db); reflexivity.
Qed.

(** With an empty schedule the two requests are served one after the
    other. *)
Lemma run2_nil {A B} (p1 : prog A) (p2 : prog B) (db : DB) :
  run2 [] (mkThread p1 []) (mkThread p2 []) db
  = (fst (run p1 db), fst (run p2 (snd (run p1 db))), snd (run p2 (snd (run p1 db)))).
Proof.
  unfold run. simpl.
  destruct (exec p1 [] db) as [[r1 pend1] db1]. simpl.
  destruct (exec p2 [] db1) as [[r2 pend2] db2]. reflexivity.
Qed.

Lemma hd_error_filter_In {X} (p : X -> bool) (l : list X) (x : X) :
  hd_error (filter p l) = Some x -> In x l /\ p x = true.
Proof.
  intro H. apply filter_In.
  destruct (filter p l); simpl in H; [discriminate|].
  injection H as ->. now left.
Qed.

Lemma hd_error_filter_None {X} (p : X -> bool) (l : list X) :
  hd_error (filter p l) = None -> forall x, In x l -> p x = false.
Proof.
  intros H x Hx. destruct (p x) eqn:E; auto.
  assert (Hin : In x (filter p l)) by (apply filter_In; auto).
  destruct (filter p l); [destruct Hin | discriminate].
Qed.

Lemma hd_error_filter_Some {X} (p : X -> bool) (l : list X) (x : X) :
  In x l -> p x = true -> exists y, hd_error (filter p l) = Some y.
Proof.
  intros Hx Hp.
  assert (Hin : In x (filter p l)) by (apply filter_In; auto).
  destruct (filter p l) as [|y r]; [destruct Hin | now exists y].
Qed.

Section CurrentUser.

Variable jwt_decode_sub : string -> option (option string).

(** The bearer-token dependency either rejects the request with 401 and
    leaves the store alone, or hands a stored user to the handler. *)
Lemma exec_with_current_user {A} (token : string) (h : User -> prog A) (db : DB) :
  exec (with_current_user jwt_decode_sub token h) [] db
    = (Raised credentials_exception, [], db)
  \/ exists u, In u (users db)
       /\ exec (with_current_user jwt_decode_sub token h) [] db = exec (h u) [] db.
Proof.
  unfold with_current_user, get_current_user.
  destruct (jwt_decode_sub token) as [[email|]|]; simpl; auto.
  destruct (hd_error _) as [u|] eqn:E; simpl; auto.
  right. exists u. split; auto.
  now apply hd_error_filter_In in E.
Qed.

End CurrentUser.

(** ** Registration *)

Section Registration.

Variable hash_password : string -> string.

Lemma register_admin_forbidden (user : UserCreate) (db : DB) :
  lower (UserCreate_role user) = "admin" ->
  run (register hash_password user) db
    = (Raised (HTTPException 403 "Admin registration not allowed"), db).
Proof.
  intro H. unfold run, register. rewrite H. reflexivity.
Qed.

(** C5. Asking the public register endpoint for the admin role fails with
    403 whatever the rest of the payload is, and the store is unchanged;
    any registration that succeeds appends exactly one user, whose role is
    "staff" whatever role string was requested. *)
Theorem register_role (user : UserCreate) (db : DB) :
  (UserCreate_role user = "admin" ->
   run (register hash_password user) db
     = (Raised (HTTPException 403 "Admin registration not allowed"), db))
  /\ (forall body db',
        run (register hash_password user) db = (Returned body, db') ->
        exists u,
          users db' = (users db ++ [u])%list
          /\ User_role u = "staff"
          /\ User_email u = UserCreate_email user
          /\ attendance db' = attendance db).
Proof.
  split.
  - intro H. apply register_admin_forbidden. now rewrite H.
  - intros body db'. unfold run, register.
    destruct (lower (UserCreate_role user) =? "admin")%string; simpl; [discriminate|].
    destruct (hd_error _); simpl; [discriminate|].
    match goal with |- context [if ?c then _ else _] => destruct c end;
      simpl; [|discriminate].
    intro H. injection H as _ <-. simpl. eexists. repeat split.
Qed.

End Registration.

Lemma register_role_witness :
  run (register Sample.hash_password (mkUserCreate "Esi" "esi@school.com" "pw" "admin"))
      Sample.db0
    = (Raised (HTTPException 403 "Admin registration not allowed"), Sample.db0)
  /\ exists u,
       users (snd (run (register Sample.hash_password
                          (mkUserCreate "Esi" "esi@school.com" "pw" "headteacher"))
                       Sample.db0))
         = (users Sample.db0 ++ [u])%list
       /\ User_role u = "staff".
Proof.
  split.
  - apply (register_role Sample.hash_password
             (mkUserCreate "Esi" "esi@school.com" "pw" "admin") Sample.db0).
    reflexivity.
  - destruct (proj2 (register_role Sample.hash_password
                       (mkUserCreate "Esi" "esi@school.com" "pw" "headteacher")
                       Sample.db0) _ _ eq_refl) as [u [H1 [H2 _]]].
    exists u. split; [exact H1 | exact H2].
Defined.

(** ** Login *)

Section Login.

Variable verify_password : string -> string -> bool.
Variable create_access_token : string -> string -> string.

(** C8. A login with a registered email and a wrong password and a login
    with an email no user has end the same way: both raise the 400
    "Invalid credentials" error and neither touches the store. *)
Theorem login_no_user_oracle (db : DB) (e1 p1 e2 p2 : string) :
  (exists u, In u (users db) /\ User_email u = e1) ->
  (forall u, In u (users db) -> User_email u = e1 ->
             verify_password p1 (User_password u) = false) ->
  (forall u, In u (users db) -> User_email u <> e2) ->
  run (login verify_password create_access_token e1 p1) db
    = (Raised (HTTPException 400 "Invalid credentials"), db)
  /\ run (login verify_password create_access_token e2 p2) db
     = run (login verify_password create_access_token e1 p1) db.
Proof.
  intros [u [Hu He]] Hwrong Hnone.
  assert (H1 : run (login verify_password create_access_token e1 p1) db
               = (Raised (HTTPException 400 "Invalid credentials"), db)).
  { unfold run, login. simpl.
    destruct (hd_error _) as [v|] eqn:E; simpl; auto.
    apply hd_error_filter_In in E. destruct E as [Hv Hev].
    apply String.eqb_eq in Hev.
    rewrite (Hwrong v Hv Hev). reflexivity. }
  split; [exact H1|]. rewrite H1.
  unfold run, login. simpl.
  destruct (hd_error _) as [v|] eqn:E; simpl; auto.
  apply hd_error_filter_In in E. destruct E as [Hv Hev].
  apply String.eqb_eq in Hev. now destruct (Hnone v Hv).
Qed.

End Login.

Lemma login_no_user_oracle_witness :
  run (login Sample.verify_password Sample.create_access_token "ama@school.com" "guess")
      Sample.db0
    = (Raised (HTTPException 400 "Invalid credentials"), Sample.db0)
  /\ run (login Sample.verify_password Sample.create_access_token "nobody@school.com" "guess")
         Sample.db0
     = run (login Sample.verify_password Sample.create_access_token "ama@school.com" "guess")
           Sample.db0.
Proof.
  apply (login_no_user_oracle Sample.verify_password Sample.create_access_token
           Sample.db0 "ama@school.com" "guess" "nobody@school.com" "guess").
  - exists Sample.ama. split; [now left | reflexivity].
  - intros u [<-|[<-|[<-|[]]]]; intro H; try discriminate H; reflexivity.
  - intros u [<-|[<-|[<-|[]]]]; discriminate.
Defined.

(** ** What the store guarantees *)

Lemma date_eqb_eq (a b : date) : date_eqb a b = true <-> a = b.
Proof.
  unfold date_eqb. destruct a, b; simpl.
  rewrite !andb_true_iff, !Z.eqb_eq.
  split; [intros [[-> ->] ->]; reflexivity | intro H; injection H; auto].
Qed.

Lemma date_eqb_refl (a : date) : date_eqb a a = true.
Proof. now apply date_eqb_eq. Qed.

Lemma Attendance_unique_check (rows : list Attendance) (a : Attendance) :
  forallb (unique_ok Attendance_get rows a) Attendance_unique
  = negb (existsb (fun r => Attendance_id r =? Attendance_id a) rows).
Proof.
  unfold Attendance_unique, unique_ok. simpl. rewrite andb_true_r.
  f_equal. induction rows as [|r rows IH]; simpl; [reflexivity|].
  rewrite IH, andb_true_r. reflexivity.
Qed.

Lemma existsb_false {X} (p : X -> bool) (l : list X) :
  (forall x, In x l -> p x = false) -> existsb p l = false.
Proof.
  intro H. destruct (existsb p l) eqn:E; auto.
  apply existsb_exists in E. destruct E as [x [Hx Hp]].
  rewrite (H x Hx) in Hp. discriminate.
Qed.

(** Inserting an attendance row for a stored user succeeds: the only
    declared constraint is the primary key, which the counter satisfies. *)
Lemma insert_attendance_ok (db : DB) (a : Attendance) :
  fresh_ids db ->
  (exists u, In u (users db) /\ User_id u = Attendance_user_id a) ->
  apply_write (InsertAttendance a) db
  = Returned (mkDB (users db)
                (attendance db ++ [set_Attendance_id (attendance_seq db) a])
                (users_seq db) (attendance_seq db + 1)).
Proof.
  intros [_ Hf] [u [Hu Hid]]. unfold apply_write.
  rewrite Attendance_unique_check.
  rewrite existsb_false.
  - simpl. replace (existsb _ (users db)) with true; [reflexivity|].
    symmetry. apply existsb_exists. exists u. split; auto.
    now apply Z.eqb_eq.
  - intros r Hr. simpl. apply Z.eqb_neq.
    rewrite Forall_forall in Hf. specialize (Hf r Hr). lia.
Qed.

(** ** Checking in *)

Section CheckIn.

Variable ip_address : string -> option ip_addr.

(** The only address inside the allowed network is 127.0.0.1. *)
Lemma ip_in_loopback32 (a : ip_addr) :
  0 <= ip_int a < 2 ^ 32 ->
  (ip_in a loopback32 = true <-> a = IPv4Address 2130706433).
Proof.
  intro Hr. unfold ip_in, loopback32. simpl.
  destruct a as [n|n]; simpl in *.
  - rewrite Z.land_ones by lia. rewrite Z.mod_small by lia.
    rewrite Z.eqb_eq. split; [intros ->; reflexivity | intro H; injection H; auto].
  - split; [discriminate | discriminate].
Qed.

(** C3. A check-in from an address outside the allowed network is refused
    with the location error whatever the time of the attempt, whoever the
    user and whatever the store holds, and the store is left as it was:
    the location test comes before every other test of the handler. *)
Theorem location_gate_first (db : DB) (host : string) (client_ip : ip_addr)
  (now : datetime) (current_user : User) :
  ip_address host = Some client_ip ->
  ip_in client_ip loopback32 = false ->
  run (mark_attendance ip_address host now current_user) db
  = (Raised (HTTPException 403 "Attendance allowed only on school network"), db).
Proof.
  intros Hp Hin. unfold run, mark_attendance. rewrite Hp, Hin. reflexivity.
Qed.

Lemma valid_time_hm (h m : Z) :
  0 <= h < 24 -> 0 <= m < 60 -> valid_time (time_hm h m).
Proof. unfold valid_time, time_hm; simpl; lia. Qed.

Lemma time_gt_hm (t : time) (h m : Z) :
  valid_time t -> 0 <= h < 24 -> 0 <= m < 60 ->
  time_gt t (time_hm h m) = (time_of_day (time_hm h m) <? time_of_day t).
Proof.
  intros Ht Hh Hm.
  pose proof (time_gt_later t (time_hm h m) Ht (valid_time_hm h m Hh Hm)) as H.
  destruct (time_gt t (time_hm h m)), (Z.ltb_spec (time_of_day (time_hm h m)) (time_of_day t));
    auto.
  - apply proj1 in H. specialize (H eq_refl). lia.
  - apply proj2 in H. specialize (H H0). discriminate.
Qed.

(** C2. A staff user on the allowed network with no record for the day:
    a check-in whose time of day is strictly after 08:00:00 is refused as
    closed and stores nothing; any other is accepted and stores one record
    whose status is Late when the time of day is strictly after 07:30:00
    and Present otherwise. *)
Theorem check_in_window (db : DB) (host : string) (client_ip : ip_addr)
  (now : datetime) (u : User) :
  ip_address host = Some client_ip ->
  ip_in client_ip loopback32 = true ->
  User_role u = "staff" ->
  In u (users db) ->
  fresh_ids db ->
  (forall a, In a (attendance db) ->
     ~ (Attendance_user_id a = User_id u /\ Attendance_date a = dt_date now)) ->
  valid_time (dt_time now) ->
  (close_of_day < time_of_day (dt_time now) ->
   run (mark_attendance ip_address host now u) db
   = (Raised (HTTPException 403 "Attendance closed for today"), db))
  /\ (time_of_day (dt_time now) <= close_of_day ->
      run (mark_attendance ip_address host now u) db
      = (Returned (JObj [("message", JStr "Attendance marked");
                         ("status", JStr (Attendance_status (check_in_record db u now)))]),
         mkDB (users db) (attendance db ++ [check_in_record db u now])
           (users_seq db) (attendance_seq db + 1)))
  /\ Attendance_status (check_in_record db u now)
     = (if late_of_day <? time_of_day (dt_time now) then "Late" else "Present").
Proof.
  intros Hp Hin Hrole Hu Hfresh Hnone Hvalid.
  assert (Hq : hd_error (filter (fun a => (Attendance_user_id a =? User_id u)
                                          && date_eqb (Attendance_date a) (dt_date now))
                           (attendance db)) = None).
  { destruct (hd_error _) as [a|] eqn:E; auto.
    apply hd_error_filter_In in E. destruct E as [Ha Hm].
    apply andb_true_iff in Hm. destruct Hm as [H1 H2].
    apply Z.eqb_eq in H1. apply date_eqb_eq in H2.
    destruct (Hnone a Ha); auto. }
  assert (Hrun : run (mark_attendance ip_address host now u) db
          = if close_of_day <? time_of_day (dt_time now)
            then (Raised (HTTPException 403 "Attendance closed for today"), db)
            else (Returned (JObj [("message", JStr "Attendance marked");
                                  ("status", JStr (Attendance_status (check_in_record db u now)))]),
                  mkDB (users db) (attendance db ++ [check_in_record db u now])
                    (users_seq db) (attendance_seq db + 1))).
  { unfold run, mark_attendance. rewrite Hp, Hin, Hrole. simpl.
    rewrite Hq. simpl.
    rewrite !time_gt_hm by (auto; lia).
    fold close_of_day late_of_day.
    destruct (close_of_day <? time_of_day (dt_time now));
      cbn [exec app apply_writes]; [reflexivity|].
    rewrite insert_attendance_ok by (auto; exists u; auto).
    reflexivity. }
  repeat split.
  - intro H. rewrite Hrun. apply Z.ltb_lt in H. now rewrite H.
  - intro H. rewrite Hrun. apply Z.ltb_ge in H. now rewrite H.
Qed.

End CheckIn.

Lemma location_gate_first_witness :
  run (mark_attendance Sample.ip_address "10.0.0.5" (Sample.at_time 7 15 0) Sample.ama)
      Sample.db0
  = (Raised (HTTPException 403 "Attendance allowed only on school network"), Sample.db0).
Proof.
  apply (location_gate_first Sample.ip_address Sample.db0 "10.0.0.5"
           (IPv4Address 167772165) (Sample.at_time 7 15 0) Sample.ama);
    reflexivity.
Defined.

Lemma check_in_window_witness :
  fst (run (mark_attendance Sample.ip_address "127.0.0.1" (Sample.at_time 7 29 59) Sample.ama)
           Sample.db0)
  = Returned (JObj [("message", JStr "Attendance marked"); ("status", JStr "Present")])
  /\ fst (run (mark_attendance Sample.ip_address "127.0.0.1" (Sample.at_time 7 30 1) Sample.ama)
              Sample.db0)
     = Returned (JObj [("message", JStr "Attendance marked"); ("status", JStr "Late")])
  /\ run (mark_attendance Sample.ip_address "127.0.0.1" (Sample.at_time 8 0 1) Sample.ama)
         Sample.db0
     = (Raised (HTTPException 403 "Attendance closed for today"), Sample.db0).
Proof.
  assert (Hfresh : fresh_ids Sample.db0)
    by (split; repeat constructor; simpl; lia).
  assert (Hnone : forall t a, In a (attendance Sample.db0) ->
            ~ (Attendance_user_id a = User_id Sample.ama
               /\ Attendance_date a = dt_date t))
    by (intros t a []).
  assert (Hin : In Sample.ama (users Sample.db0)) by (simpl; tauto).
  split; [|split].
  - destruct (check_in_window Sample.ip_address Sample.db0 "127.0.0.1"
                (IPv4Address 2130706433) (Sample.at_time 7 29 59) Sample.ama
                eq_refl eq_refl eq_refl Hin Hfresh (Hnone _)
                ltac:(unfold valid_time; simpl; lia))
      as [_ [H _]].
    rewrite H by (vm_compute; discriminate). reflexivity.
  - destruct (check_in_window Sample.ip_address Sample.db0 "127.0.0.1"
                (IPv4Address 2130706433) (Sample.at_time 7 30 1) Sample.ama
                eq_refl eq_refl eq_refl Hin Hfresh (Hnone _)
                ltac:(unfold valid_time; simpl; lia))
      as [_ [H _]].
    rewrite H by (vm_compute; discriminate). reflexivity.
  - destruct (check_in_window Sample.ip_address Sample.db0 "127.0.0.1"
                (IPv4Address 2130706433) (Sample.at_time 8 0 1) Sample.ama
                eq_refl eq_refl eq_refl Hin Hfresh (Hnone _)
                ltac:(unfold valid_time; simpl; lia))
      as [H _].
    apply H. reflexivity.
Defined.

(** The two boundaries are on the accepting side: exactly 07:30:00 is
    Present, exactly 08:00:00 is Late, and one microsecond later the
    window is closed. *)
Example check_in_boundaries :
  fst (run (mark_attendance Sample.ip_address "127.0.0.1" (Sample.at_time 7 30 0) Sample.ama)
           Sample.db0)
  = Returned (marked "Present")
  /\ fst (run (mark_attendance Sample.ip_address "127.0.0.1" (Sample.at_time 8 0 0) Sample.ama)
              Sample.db0)
     = Returned (marked "Late")
  /\ fst (run (mark_attendance Sample.ip_address "127.0.0.1"
                 (mkdatetime Sample.d1 (mktime 8 0 0 1)) Sample.ama)
              Sample.db0)
     = Raised (HTTPException 403 "Attendance closed for today").
Proof. split; [|split]; reflexivity. Qed.

(** ** Handlers that only read *)

Lemma exec_no_commit {A} (p : prog A) :
  no_commit p -> forall pend db, snd (exec p pend db) = db.
Proof.
  induction 1; intros pend db; simpl; auto.
Qed.

Lemma no_commit_bind {A B} (m : prog A) (f : A -> prog B) :
  no_commit m -> (forall a, no_commit (f a)) -> no_commit (bind m f).
Proof.
  induction 1; intro Hf; simpl; try constructor; auto.
Qed.

Lemma no_commit_for_each {X B} (l : list X) (body : X -> prog B) :
  (forall x, no_commit (body x)) -> no_commit (for_each l body).
Proof.
  intro Hb. induction l as [|x l IH]; simpl; [constructor|].
  apply no_commit_bind; auto. intro y.
  apply no_commit_bind; auto. intro ys. constructor.
Qed.

Lemma run_no_commit {A} (p : prog A) (db : DB) :
  no_commit p -> snd (run p db) = db.
Proof.
  intro H. unfold run.
  pose proof (exec_no_commit p H [] db) as E.
  destruct (exec p [] db) as [[r pend] db']. exact E.
Qed.

Ltac no_commit_tac :=
  repeat first
    [ apply no_commit_for_each; intro
    | apply no_commit_bind; [|intro]
    | constructor; try intro
    | match goal with
      | |- no_commit (if ?c then _ else _) => destruct c
      | |- no_commit (match ?x with _ => _ end) => destruct x
      end ].

Lemma no_commit_get_current_user jwt_decode_sub token :
  no_commit (get_current_user jwt_decode_sub token).
Proof. unfold get_current_user, first_user. no_commit_tac. Qed.

Lemma no_commit_login verify_password create_access_token username password :
  no_commit (login verify_password create_access_token username password).
Proof. unfold login, first_user. no_commit_tac. Qed.

Lemma no_commit_get_absentees today u : no_commit (get_absentees today u).
Proof. unfold get_absentees, all_users, all_attendance. no_commit_tac. Qed.

Lemma no_commit_daily_summary today u : no_commit (daily_summary today u).
Proof. unfold daily_summary, all_users, all_attendance. no_commit_tac. Qed.

Lemma no_commit_get_all_staff u : no_commit (get_all_staff u).
Proof. unfold get_all_staff, all_users. no_commit_tac. Qed.

Lemma no_commit_attendance_percentage u : no_commit (attendance_percentage u).
Proof.
  unfold attendance_percentage, percentage_entry, truediv, all_users, all_attendance.
  no_commit_tac.
Qed.

Lemma no_commit_reset_password hash_password token new_password :
  no_commit (reset_password hash_password token new_password).
Proof. unfold reset_password. simpl. constructor. Qed.

(** ** The store stays consistent *)

Lemma NoDup_snoc {X} (l : list X) (x : X) :
  NoDup l -> ~ In x l -> NoDup (l ++ [x]).
Proof.
  intros Hl Hx.
  apply (Permutation_NoDup (l := x :: l)).
  - apply Permutation_cons_append.
  - now constructor.
Qed.

Lemma NoDup_map_filter {X Y} (f : X -> Y) (p : X -> bool) (l : list X) :
  NoDup (map f l) -> NoDup (map f (filter p l)).
Proof.
  induction l as [|x l IH]; simpl; intro H; [constructor|].
  inversion H as [|? ? Hx Hl]; subst.
  destruct (p x); simpl; auto.
  constructor; auto.
  intro Hin. apply Hx.
  apply in_map_iff in Hin. destruct Hin as [y [Hy Hin]].
  apply filter_In in Hin. apply in_map_iff. exists y. tauto.
Qed.

Lemma consistent_empty : consistent empty_db.
Proof.
  constructor; simpl.
  - split; constructor.
  - constructor.
  - intros a [].
  - constructor.
  - intros a [].
Qed.

Lemma insert_user_consistent (db db' : DB) (u : User) :
  consistent db -> apply_write (InsertUser u) db = Returned db' -> consistent db'.
Proof.
  intros [[Hfu Hfa] Hpk Hown Honce Hst]. unfold apply_write.
  destruct (forallb _ User_unique); [|discriminate].
  intro H. injection H as <-.
  constructor; simpl; auto.
  - split; simpl.
    + apply Forall_app. split.
      * eapply Forall_impl; [|exact Hfu]. simpl. intros; lia.
      * constructor; [simpl; lia | constructor].
    + exact Hfa.
  - rewrite map_app. simpl. apply NoDup_snoc; auto.
    intro Hin. apply in_map_iff in Hin. destruct Hin as [v [Hv Hin]].
    rewrite Forall_forall in Hfu. specialize (Hfu v Hin). lia.
  - intros a Ha. destruct (Hown a Ha) as [v [Hv Hrest]].
    exists v. split; auto. apply in_or_app. now left.
Qed.

Lemma insert_attendance_consistent (db db' : DB) (u : User) (today : date)
  (now : datetime) (status : string) :
  consistent db ->
  In u (users db) ->
  User_role u = "staff" ->
  (forall a, In a (attendance db) ->
     (Attendance_user_id a =? User_id u) && date_eqb (Attendance_date a) today = false) ->
  status = "Present" \/ status = "Late" ->
  apply_write (InsertAttendance (mkAttendance 0 (User_id u) today now status)) db
    = Returned db' ->
  consistent db'.
Proof.
  intros [[Hfu Hfa] Hpk Hown Honce Hst] Hu Hrole Hnone Hstatus. unfold apply_write.
  match goal with |- context [if ?c then _ else _] => destruct c end; [|discriminate].
  intro H. injection H as <-.
  constructor; simpl; auto.
  - split; simpl; auto.
    apply Forall_app. split.
    + eapply Forall_impl; [|exact Hfa]. simpl. intros; lia.
    + constructor; [simpl; lia | constructor].
  - intros a Ha. apply in_app_or in Ha. destruct Ha as [Ha|[<-|[]]]; auto.
    exists u. simpl. auto.
  - rewrite map_app. simpl. apply NoDup_snoc; auto.
    intro Hin. apply in_map_iff in Hin. destruct Hin as [a [Ha Hin]].
    unfold user_day in Ha. simpl in Ha. injection Ha as H1 H2.
    specialize (Hnone a Hin).
    rewrite H1, H2, Z.eqb_refl, date_eqb_refl in Hnone. discriminate.
  - intros a Ha. apply in_app_or in Ha. destruct Ha as [Ha|[<-|[]]]; auto.
Qed.

Lemma delete_staff_writes (db : DB) (staff_id : Z) :
  apply_writes [DeleteAttendanceWhere (fun a => Attendance_user_id a =? staff_id);
                DeleteUser staff_id] db
  = Returned (mkDB (filter (fun u => negb (User_id u =? staff_id)) (users db))
                (filter (fun a => negb (Attendance_user_id a =? staff_id)) (attendance db))
                (users_seq db) (attendance_seq db)).
Proof.
  simpl. rewrite existsb_false; [reflexivity|].
  intros a Ha. apply filter_In in Ha. destruct Ha as [_ Ha].
  now apply negb_true_iff in Ha.
Qed.

Lemma delete_staff_consistent (db : DB) (staff_id : Z) :
  consistent db ->
  consistent (mkDB (filter (fun u => negb (User_id u =? staff_id)) (users db))
                (filter (fun a => negb (Attendance_user_id a =? staff_id)) (attendance db))
                (users_seq db) (attendance_seq db)).
Proof.
  intros [[Hfu Hfa] Hpk Hown Honce Hst].
  constructor; simpl.
  - split; simpl; rewrite Forall_forall in *; intros x Hx;
      apply filter_In in Hx; destruct Hx; auto.
  - now apply NoDup_map_filter.
  - intros a Ha. apply filter_In in Ha. destruct Ha as [Ha Hne].
    destruct (Hown a Ha) as [u [Hu [Hid Hrole]]].
    exists u. repeat split; auto.
    apply filter_In. split; auto. now rewrite Hid.
  - now apply NoDup_map_filter.
  - intros a Ha. apply filter_In in Ha. destruct Ha as [Ha _]. auto.
Qed.

Section Preservation.

Variable hash_password : string -> string.
Variable verify_password : string -> string -> bool.
Variable create_access_token : string -> string -> string.
Variable jwt_decode_sub : string -> option (option string).
Variable ip_address : string -> option ip_addr.

Lemma mark_attendance_consistent (db : DB) (host : string) (now : datetime) (u : User) :
  consistent db -> In u (users db) ->
  consistent (snd (run (mark_attendance ip_address host now u) db)).
Proof.
  intros Hc Hu. unfold run, mark_attendance.
  destruct (ip_address host) as [ip|]; simpl; auto.
  destruct (ip_in ip loopback32); simpl; auto.
  destruct (User_role u =? "staff")%string eqn:Hrole; simpl; auto.
  apply String.eqb_eq in Hrole.
  destruct (hd_error _) eqn:Hq; simpl; auto.
  pose proof (hd_error_filter_None _ _ Hq) as Hnone. simpl in Hnone.
  destruct (time_gt (dt_time now) (time_hm 8 0)); cbn [exec app apply_writes snd]; auto.
  destruct (time_gt (dt_time now) (time_hm 7 30));
    (destruct (apply_write _ db) as [db'|e] eqn:Hw; simpl; auto;
     refine (insert_attendance_consistent db db' u (dt_date now) now _
               Hc Hu Hrole Hnone _ Hw); auto).
Qed.

Lemma delete_staff_run (db : DB) (staff_id : Z) (u : User) :
  snd (run (delete_staff staff_id u) db) = db
  \/ snd (run (delete_staff staff_id u) db)
     = mkDB (filter (fun u => negb (User_id u =? staff_id)) (users db))
         (filter (fun a => negb (Attendance_user_id a =? staff_id)) (attendance db))
         (users_seq db) (attendance_seq db).
Proof.
  unfold run, delete_staff.
  destruct (negb _); simpl; auto.
  destruct (hd_error _) as [s|] eqn:Hq; cbn [exec app snd]; auto.
  apply hd_error_filter_In in Hq. destruct Hq as [_ Hq].
  apply andb_true_iff in Hq. destruct Hq as [Hid _]. apply Z.eqb_eq in Hid.
  rewrite Hid, delete_staff_writes. simpl. auto.
Qed.

Lemma with_current_user_consistent (token : string) (h : User -> prog json) (db : DB) :
  consistent db ->
  (forall u, In u (users db) -> consistent (snd (run (h u) db))) ->
  consistent (snd (run (with_current_user jwt_decode_sub token h) db)).
Proof.
  intros Hc Hh. unfold run.
  destruct (exec_with_current_user jwt_decode_sub token h db) as [E|[u [Hu E]]];
    rewrite E; [exact Hc|].
  apply (Hh u Hu).
Qed.

Lemma add_user_consistent (db : DB) (u : User) (body : json) :
  consistent db -> consistent (snd (run (AddUser u (Commit (Ret body))) db)).
Proof.
  intro Hc. unfold run. cbn [exec app apply_writes].
  destruct (apply_write (InsertUser u) db) as [db'|e] eqn:Hw; simpl; auto.
  eapply insert_user_consistent; eauto.
Qed.

(** Serving a request keeps the store consistent. *)
Lemma serve_consistent (r : request) (db : DB) :
  consistent db ->
  consistent (snd (serve hash_password verify_password create_access_token
                     jwt_decode_sub ip_address r db)).
Proof.
  intro Hc. unfold serve.
  destruct r; simpl handler.
  - unfold create_default_admin, first_user, run. cbn [bind exec].
    destruct (hd_error _); cbn [bind exec app apply_writes snd]; auto.
    destruct (apply_write _ db) as [db'|e] eqn:Hw; simpl; auto.
    eapply insert_user_consistent; eauto.
  - unfold register.
    destruct (lower _ =? "admin")%string; [exact Hc|].
    unfold first_user. unfold run at 1. simpl.
    destruct (hd_error _); [exact Hc|].
    apply (add_user_consistent db _ _ Hc).
  - rewrite run_no_commit; [exact Hc | apply no_commit_login].
  - apply with_current_user_consistent; auto.
  - apply with_current_user_consistent; auto.
    intros u Hu. now apply mark_attendance_consistent.
  - apply with_current_user_consistent; auto. intros u _.
    rewrite run_no_commit; [exact Hc | apply no_commit_get_absentees].
  - unfold forgot_password, first_user, run. simpl.
    destruct (hd_error _); exact Hc.
  - rewrite run_no_commit; [exact Hc | apply no_commit_reset_password].
  - apply with_current_user_consistent; auto. intros u _.
    rewrite run_no_commit; [exact Hc | apply no_commit_daily_summary].
  - apply with_current_user_consistent; auto. intros u _.
    rewrite run_no_commit; [exact Hc | apply no_commit_get_all_staff].
  - apply with_current_user_consistent; auto. intros u _.
    destruct (delete_staff_run db staff_id u) as [E|E]; rewrite E; auto.
    now apply delete_staff_consistent.
  - apply with_current_user_consistent; auto. intros u _.
    rewrite run_no_commit; [exact Hc | apply no_commit_attendance_percentage].
Qed.

Lemma serve_all_consistent (rs : list request) (db : DB) :
  consistent db ->
  consistent (serve_all hash_password verify_password create_access_token
                jwt_decode_sub ip_address rs db).
Proof.
  revert db. induction rs as [|r rs IH]; intros db Hc; simpl; auto.
  apply IH. now apply serve_consistent.
Qed.

End Preservation.

(** ** One record per user and day *)

Section OncePerDay.

Variable hash_password : string -> string.
Variable verify_password : string -> string -> bool.
Variable create_access_token : string -> string -> string.
Variable jwt_decode_sub : string -> option (option string).
Variable ip_address : string -> option ip_addr.

Lemma already_marked (db : DB) (host : string) (client_ip : ip_addr)
  (now : datetime) (u : User) (a : Attendance) :
  ip_address host = Some client_ip ->
  ip_in client_ip loopback32 = true ->
  User_role u = "staff" ->
  In a (attendance db) ->
  Attendance_user_id a = User_id u ->
  Attendance_date a = dt_date now ->
  run (mark_attendance ip_address host now u) db
  = (Raised (HTTPException 400 "Already marked today"), db).
Proof.
  intros Hp Hin Hrole Ha Hid Hdate.
  unfold run, mark_attendance. rewrite Hp, Hin, Hrole. simpl.
  destruct (hd_error_filter_Some
              (fun a => (Attendance_user_id a =? User_id u)
                        && date_eqb (Attendance_date a) (dt_date now))
              (attendance db) a Ha) as [b Hb].
  - rewrite Hid, Hdate, Z.eqb_refl, date_eqb_refl. reflexivity.
  - rewrite Hb. reflexivity.
Qed.

(** C1, as the code has it.  While requests are served one at a time, a
    check-in by a staff user on the allowed network is refused with
    "Already marked today" whenever the store holds a record of that user
    for that date, and no sequence of requests ever leaves two records
    with the same user and date. *)
Theorem one_check_in_per_day (db : DB) :
  consistent db ->
  (forall host client_ip now u a,
      ip_address host = Some client_ip ->
      ip_in client_ip loopback32 = true ->
      User_role u = "staff" ->
      In a (attendance db) ->
      Attendance_user_id a = User_id u ->
      Attendance_date a = dt_date now ->
      run (mark_attendance ip_address host now u) db
      = (Raised (HTTPException 400 "Already marked today"), db))
  /\ (forall rs,
        NoDup (map user_day
                 (attendance (serve_all hash_password verify_password create_access_token
                                jwt_decode_sub ip_address rs db)))).
Proof.
  intro Hc. split.
  - intros. eapply already_marked; eauto.
  - intro rs. apply c_once. now apply serve_all_consistent.
Qed.

End OncePerDay.

Lemma consistent_db0 : consistent Sample.db0.
Proof.
  constructor; simpl.
  - split; repeat constructor; simpl; lia.
  - repeat constructor; simpl; intuition discriminate.
  - intros a [].
  - constructor.
  - intros a [].
Qed.

Lemma one_check_in_per_day_witness :
  NoDup (map user_day
           (attendance
              (serve_all Sample.hash_password Sample.verify_password
                 Sample.create_access_token Sample.jwt_decode_sub Sample.ip_address
                 [PostMarkAttendance "t:ama@school.com" "127.0.0.1" (Sample.at_time 7 10 0);
                  PostMarkAttendance "t:ama@school.com" "127.0.0.1" (Sample.at_time 7 10 1)]
                 Sample.db0))).
Proof.
  apply (one_check_in_per_day Sample.hash_password Sample.verify_password
           Sample.create_access_token Sample.jwt_decode_sub Sample.ip_address
           Sample.db0).
  constructor; simpl.
  - split; repeat constructor; simpl; lia.
  - repeat constructor; simpl; intuition discriminate.
  - intros a [].
  - constructor.
  - intros a [].
Defined.

(** The same two check-ins, the second starting after the first has
    committed: the second is refused. *)
Example check_ins_in_turn :
  run2 []
    (mkThread (mark_attendance Sample.ip_address "127.0.0.1" (Sample.at_time 7 10 0)
                 Sample.ama) [])
    (mkThread (mark_attendance Sample.ip_address "127.0.0.1" (Sample.at_time 7 10 1)
                 Sample.ama) [])
    Sample.db0
  = (Returned (marked "Present"), Raised (HTTPException 400 "Already marked today"),
     Sample.db1).
Proof. reflexivity. Qed.

(** C1 as stated fails: [Attendance] declares no uniqueness on
    (user_id, date), and two overlapping check-ins of the same user on the
    same day both succeed and leave two records for that user and day. *)
Lemma concurrent_check_ins_both_succeed :
  ~ In ["user_id"; "date"] Attendance_unique
  /\ fst racing_check_ins = (Returned (marked "Present"), Returned (marked "Present"))
  /\ map user_day (attendance (snd racing_check_ins))
     = [(1, Sample.d1); (1, Sample.d1)]
  /\ ~ NoDup (map user_day (attendance (snd racing_check_ins))).
Proof.
  split; [|split; [|split]].
  - simpl. intros [H|[]]. discriminate H.
  - reflexivity.
  - reflexivity.
  - intro H. inversion H as [|x l Hx Hl]. apply Hx. now left.
Qed.

(** ** Deleting a staff user *)

(** C9. For an admin caller: when no stored user has the given id with
    role "staff" (in particular when the id is an admin's) the request
    fails with 404 and the store is unchanged; otherwise it succeeds, and
    afterwards the users are exactly the former users with another id and
    the attendance records exactly the former records of other users. *)
Theorem delete_staff_cascade (db : DB) (staff_id : Z) (current_user : User) :
  User_role current_user = "admin" ->
  ((forall u, In u (users db) -> ~ (User_id u = staff_id /\ User_role u = "staff")) ->
   run (delete_staff staff_id current_user) db
   = (Raised (HTTPException 404 "Staff not found"), db))
  /\ ((exists u, In u (users db) /\ User_id u = staff_id /\ User_role u = "staff") ->
      exists db',
        run (delete_staff staff_id current_user) db
        = (Returned (message "Staff deleted successfully"), db')
        /\ (forall u, In u (users db') <-> In u (users db) /\ User_id u <> staff_id)
        /\ (forall a, In a (attendance db') <->
                      In a (attendance db) /\ Attendance_user_id a <> staff_id)
        /\ attendance db'
           = filter (fun a => negb (Attendance_user_id a =? staff_id)) (attendance db)).
Proof.
  intro Hadmin. unfold run, delete_staff. rewrite Hadmin. simpl. split.
  - intro Hnone.
    destruct (hd_error _) as [s|] eqn:Hq; simpl; auto.
    apply hd_error_filter_In in Hq. destruct Hq as [Hs Hq].
    apply andb_true_iff in Hq. destruct Hq as [Hid Hrole].
    apply Z.eqb_eq in Hid. apply String.eqb_eq in Hrole.
    destruct (Hnone s Hs); auto.
  - intros [u [Hu [Hid Hrole]]].
    destruct (hd_error_filter_Some
                (fun u => (User_id u =? staff_id) && (User_role u =? "staff")%string)
                (users db) u Hu) as [s Hs].
    + rewrite Hid, Hrole, Z.eqb_refl. reflexivity.
    + rewrite Hs. cbn [exec app].
      apply hd_error_filter_In in Hs. destruct Hs as [_ Hs].
      apply andb_true_iff in Hs. destruct Hs as [Hsid _]. apply Z.eqb_eq in Hsid.
      rewrite Hsid, delete_staff_writes. cbn [exec].
      eexists. split; [reflexivity|]. simpl. split; [|split]; auto.
      * intro v. rewrite filter_In, negb_true_iff, Z.eqb_neq. tauto.
      * intro a. rewrite filter_In, negb_true_iff, Z.eqb_neq. tauto.
Qed.

Lemma delete_staff_cascade_witness :
  run (delete_staff 3 Sample.root) Sample.db0
  = (Raised (HTTPException 404 "Staff not found"), Sample.db0)
  /\ exists db',
       run (delete_staff 1 Sample.root) Sample.db0
       = (Returned (message "Staff deleted successfully"), db')
       /\ users db' = [Sample.kofi; Sample.root].
Proof.
  split.
  - apply (delete_staff_cascade Sample.db0 3 Sample.root eq_refl).
    intros u [<-|[<-|[<-|[]]]]; simpl; intros [H1 H2]; discriminate.
  - destruct (proj2 (delete_staff_cascade Sample.db0 1 Sample.root eq_refl))
      as [db' [Hrun _]].
    + exists Sample.ama. simpl. auto.
    + exists db'. split; [exact Hrun|].
      unfold run in Hrun. simpl in Hrun. injection Hrun as <-. reflexivity.
Defined.

(** ** Password reset *)

Section PasswordReset.

Variable hash_password : string -> string.

(** C4 on the code.  For a registered email, [forgot_password] answers
    with the token but stores nothing, because [reset_token] is not a
    column of [User]; and [reset_password] raises [AttributeError] on
    [models.User.reset_token] before it looks anything up, so no token is
    ever consumed and no password is ever changed. *)
Theorem reset_round_trip_broken (db : DB) (email token new_password : string) :
  (exists u, In u (users db) /\ User_email u = email) ->
  run (forgot_password email token) db
  = (Returned (JObj [("message", JStr "Reset token generated");
                     ("reset_token", JStr token)]), db)
  /\ run (reset_password hash_password token new_password) db
     = (Raised (AttributeError "type object 'User' has no attribute 'reset_token'"), db).
Proof.
  intros [u [Hu He]]. split; [|reflexivity].
  unfold run, forgot_password. simpl.
  destruct (hd_error_filter_Some (fun v => (User_email v =? email)%string)
              (users db) u Hu) as [s Hs].
  - now apply String.eqb_eq.
  - rewrite Hs. reflexivity.
Qed.

End PasswordReset.

Lemma reset_round_trip_broken_witness :
  run (forgot_password "ama@school.com" "TOKEN") Sample.db0
  = (Returned (JObj [("message", JStr "Reset token generated");
                     ("reset_token", JStr "TOKEN")]), Sample.db0)
  /\ run (reset_password Sample.hash_password "TOKEN" "new-password") Sample.db0
     = (Raised (AttributeError "type object 'User' has no attribute 'reset_token'"),
        Sample.db0).
Proof.
  apply (reset_round_trip_broken Sample.hash_password Sample.db0
           "ama@school.com" "TOKEN" "new-password").
  exists Sample.ama. split; [simpl; tauto | reflexivity].
Defined.

(** ** Daily summary and absentees *)

Lemma length_filter_split {X} (p : X -> bool) (l : list X) :
  (length (filter p l) + length (filter (fun x => negb (p x)) l) = length l)%nat.
Proof.
  induction l as [|x l IH]; simpl; [reflexivity|].
  destruct (p x); simpl; lia.
Qed.

(** Rows whose keys are distinct and all occur among the distinct keys of
    [l] pick out as many elements of [l] as there are keys. *)
Lemma length_filter_keys {X} (f : X -> Z) (l : list X) (ks : list Z) :
  NoDup (map f l) -> NoDup ks -> (forall k, In k ks -> In k (map f l)) ->
  length (filter (fun x => mem_Z (f x) ks) l) = length ks.
Proof.
  intros Hl Hks Hsub.
  rewrite <- (length_map f (filter _ l)).
  apply Permutation_length, NoDup_Permutation; auto.
  - now apply NoDup_map_filter.
  - intro k. rewrite in_map_iff. split.
    + intros [x [<- Hx]]. apply filter_In in Hx. destruct Hx as [_ Hm].
      unfold mem_Z in Hm. apply existsb_exists in Hm.
      destruct Hm as [k [Hk E]]. apply Z.eqb_eq in E. now subst.
    + intro Hk. destruct (proj1 (in_map_iff _ _ _) (Hsub k Hk)) as [x [E Hx]].
      exists x. split; auto. apply filter_In. split; auto.
      unfold mem_Z. apply existsb_exists. exists k. split; auto.
      now apply Z.eqb_eq.
Qed.

Lemma NoDup_ids_of_day (today : date) (l : list Attendance) :
  NoDup (map user_day l) ->
  NoDup (map Attendance_user_id
           (filter (fun a => date_eqb (Attendance_date a) today) l)).
Proof.
  induction l as [|a l IH]; simpl; intro H; [constructor|].
  inversion H as [|? ? Ha Hl]; subst.
  destruct (date_eqb (Attendance_date a) today) eqn:E; simpl; auto.
  constructor; auto.
  intro Hin. apply Ha.
  apply in_map_iff in Hin. destruct Hin as [b [Hid Hb]].
  apply filter_In in Hb. destruct Hb as [Hb Hd].
  apply date_eqb_eq in E. apply date_eqb_eq in Hd.
  apply in_map_iff. exists b. split; auto.
  unfold user_day. congruence.
Qed.

Lemma present_plus_late (today : date) (l : list Attendance) :
  (forall a, In a l -> Attendance_status a = "Present" \/ Attendance_status a = "Late") ->
  (length (filter (fun a => date_eqb (Attendance_date a) today
                            && (Attendance_status a =? "Present")%string) l)
   + length (filter (fun a => date_eqb (Attendance_date a) today
                              && (Attendance_status a =? "Late")%string) l)
   = length (filter (fun a => date_eqb (Attendance_date a) today) l))%nat.
Proof.
  induction l as [|a l IH]; simpl; intro H; [reflexivity|].
  assert (IH' := IH (fun b Hb => H b (or_intror Hb))).
  destruct (date_eqb (Attendance_date a) today); simpl; auto.
  destruct (H a (or_introl eq_refl)) as [E|E]; rewrite E; simpl; lia.
Qed.

(** C6, as the code has it.  In a consistent store (the stores reached by
    serving requests one at a time), for every date the absent count of
    the daily summary is the number of entries of the absentee list. *)
Theorem absent_count_is_absentees (db : DB) (today : date) (current_user : User) :
  consistent db ->
  User_role current_user = "admin" ->
  exists total present late absentees,
    run (daily_summary today current_user) db
    = (Returned (JObj [("total_staff", JInt total);
                       ("present_count", JInt present);
                       ("late_count", JInt late);
                       ("absent_count", JInt (len absentees))]), db)
    /\ run (get_absentees today current_user) db
       = (Returned (JObj [("date", JStr (str_date today));
                          ("absentees", JList absentees)]), db).
Proof.
  intros [Hfresh Hpk Hown Honce Hst] Hadmin.
  set (staff := filter (fun u => (User_role u =? "staff")%string) (users db)).
  set (attended := filter (fun a => date_eqb (Attendance_date a) today) (attendance db)).
  set (present := filter (fun a => date_eqb (Attendance_date a) today
                                   && (Attendance_status a =? "Present")%string)
                    (attendance db)).
  set (late := filter (fun a => date_eqb (Attendance_date a) today
                                && (Attendance_status a =? "Late")%string)
                 (attendance db)).
  set (absentees := map user_json
                      (filter (fun u => negb (mem_Z (User_id u)
                                                (map Attendance_user_id attended))) staff)).
  assert (Hcount : len staff - len present - len late = len absentees).
  { unfold len, absentees. rewrite length_map.
    pose proof (present_plus_late today (attendance db) Hst) as Hpl.
    fold attended present late in Hpl.
    pose proof (length_filter_split
                  (fun u => mem_Z (User_id u) (map Attendance_user_id attended)) staff)
      as Hsp.
    assert (Hk : length (filter (fun u => mem_Z (User_id u)
                                            (map Attendance_user_id attended)) staff)
                 = length (map Attendance_user_id attended)).
    { apply length_filter_keys.
      - now apply NoDup_map_filter.
      - now apply NoDup_ids_of_day.
      - intros k Hk. apply in_map_iff in Hk. destruct Hk as [a [<- Ha]].
        apply filter_In in Ha. destruct Ha as [Ha _].
        destruct (Hown a Ha) as [u [Hu [Hid Hrole]]].
        apply in_map_iff. exists u. split; auto.
        apply filter_In. split; auto. now apply String.eqb_eq. }
    rewrite length_map in Hk. simpl in Hsp. lia. }
  exists (len staff), (len present), (len late), absentees.
  unfold run, daily_summary, get_absentees. rewrite Hadmin. simpl.
  fold staff present late attended absentees.
  rewrite Hcount. split; reflexivity.
Qed.

Lemma absent_count_is_absentees_witness :
  exists absentees,
    run (daily_summary Sample.d1 Sample.root) Sample.db1
    = (Returned (JObj [("total_staff", JInt 2);
                       ("present_count", JInt 1);
                       ("late_count", JInt 0);
                       ("absent_count", JInt (len absentees))]), Sample.db1)
    /\ run (get_absentees Sample.d1 Sample.root) Sample.db1
       = (Returned (JObj [("date", JStr "2024-03-04");
                          ("absentees", JList absentees)]), Sample.db1).
Proof.
  assert (Hc : consistent Sample.db1).
  { constructor; simpl.
    - split; repeat constructor; simpl; lia.
    - repeat constructor; simpl; intuition discriminate.
    - intros a [<-|[]]. exists Sample.ama. simpl. tauto.
    - repeat constructor. simpl. tauto.
    - intros a [<-|[]]. now left. }
  destruct (absent_count_is_absentees Sample.db1 Sample.d1 Sample.root Hc eq_refl)
    as [total [present [late [absentees [H1 H2]]]]].
  exists absentees. split; [|exact H2].
  rewrite H1. unfold run in H1. simpl in H1.
  injection H1 as <- <- <- _. reflexivity.
Defined.

(** C6 as stated fails on the store two overlapping check-ins leave: both
    of Ama's records count as present, so the summary reports no absentee
    while the absentee list names Kofi. *)
Lemma absent_count_differs_after_race :
  run (daily_summary Sample.d1 Sample.root) (snd racing_check_ins)
  = (Returned (JObj [("total_staff", JInt 2);
                     ("present_count", JInt 2);
                     ("late_count", JInt 0);
                     ("absent_count", JInt 0)]), snd racing_check_ins)
  /\ run (get_absentees Sample.d1 Sample.root) (snd racing_check_ins)
     = (Returned (JObj [("date", JStr "2024-03-04");
                        ("absentees", JList [user_json Sample.kofi])]),
        snd racing_check_ins)
  /\ 0 <> len [user_json Sample.kofi].
Proof.
  split; [reflexivity | split; [reflexivity | discriminate]].
Qed.

(** ** Rounding to the nearest double *)

Lemma round_half_even_err (q : Q) :
  (Qabs (inject_Z (round_half_even q) - q) <= 1 # 2)%Q.
Proof.
  apply Qabs_Qle_condition.
  destruct q as [n d]. unfold round_half_even. simpl Qnum. simpl Qden.
  pose proof (Z.div_mod n (Zpos d) ltac:(lia)) as Hdm.
  pose proof (Z.mod_pos_bound n (Zpos d) ltac:(lia)) as Hb.
  set (f := n / Zpos d) in *. set (r := n mod Zpos d) in *.
  destruct (Z.compare_spec (2 * r) (Zpos d)) as [E|E|E];
    [destruct (Z.even f)| |];
    unfold Qle, Qminus, Qplus, Qopp, inject_Z; simpl;
    split; nia.
Qed.

Lemma pow2_pos (e : Z) : (0 < pow2 e)%Q.
Proof. apply Qpower_0_lt. reflexivity. Qed.

Lemma pow2_plus (a b : Z) : (pow2 (a + b) == pow2 a * pow2 b)%Q.
Proof. apply Qpower_plus. discriminate. Qed.

Lemma pow2_le (a b : Z) : a <= b -> (pow2 a <= pow2 b)%Q.
Proof. intro H. apply Qpower_le_compat_l; [exact H | discriminate]. Qed.

Lemma pow2_le_inv (a b : Z) : (pow2 a <= pow2 b)%Q -> a <= b.
Proof. intro H. apply (Qpower_le_compat_l_inv (2 # 1)); [exact H | reflexivity]. Qed.

Lemma pow2_inject (n : Z) : 0 <= n -> (inject_Z (2 ^ n) == pow2 n)%Q.
Proof. intro H. unfold pow2. rewrite Zpower_Qpower by exact H. reflexivity. Qed.

Lemma pow2_below (q : Q) :
  ~ (q == 0)%Q ->
  (pow2 (Z.log2 (Z.abs (Qnum q)) - Z.log2 (Zpos (Qden q)) - 52 + 51) <= Qabs q)%Q.
Proof.
  intro Hq. destruct q as [n d]. simpl Qnum. simpl Qden.
  assert (Hn : 0 < Z.abs n).
  { destruct n; try reflexivity. exfalso. apply Hq. reflexivity. }
  set (ln := Z.log2 (Z.abs n)). set (ld := Z.log2 (Zpos d)).
  destruct (Z.log2_spec (Z.abs n) Hn) as [Hn1 _]. fold ln in Hn1.
  destruct (Z.log2_spec (Zpos d) ltac:(lia)) as [_ Hd2]. fold ld in Hd2.
  assert (Hln : 0 <= ln) by apply Z.log2_nonneg.
  assert (Hld : 0 <= ld) by apply Z.log2_nonneg.
  assert (E : (Qabs (n # d) == inject_Z (Z.abs n) / inject_Z (Zpos d))%Q).
  { unfold Qabs. rewrite (Qmake_Qdiv (Z.abs n) d). reflexivity. }
  rewrite E. apply Qle_shift_div_l; [reflexivity|].
  apply Qle_trans with (pow2 (ln - ld - 52 + 51) * pow2 (ld + 1))%Q.
  - apply Qmult_le_l; [apply pow2_pos|].
    rewrite <- pow2_inject by lia.
    rewrite <- Zle_Qle. rewrite <- Z.add_1_r in Hd2. lia.
  - rewrite <- pow2_plus.
    replace (ln - ld - 52 + 51 + (ld + 1)) with ln by lia.
    rewrite <- pow2_inject by lia. rewrite <- Zle_Qle. exact Hn1.
Qed.

Lemma ulp_exp_le (q : Q) (k : Z) :
  ~ (q == 0)%Q -> (Qabs q <= pow2 k)%Q -> -1022 <= k -> ulp_exp q <= k - 52.
Proof.
  intros Hq Hk Hr. unfold ulp_exp.
  set (e0 := Z.log2 (Z.abs (Qnum q)) - Z.log2 (Zpos (Qden q)) - 52).
  assert (H1 : forall e1, (pow2 (e1 + 52) <= Qabs q)%Q -> Z.max e1 (-1074) <= k - 52).
  { intros e1 H. assert (e1 + 52 <= k); [|lia].
    apply pow2_le_inv. eapply Qle_trans; eauto. }
  apply H1.
  destruct (Qle_bool (pow2 52) (Qabs q / pow2 e0)) eqn:T.
  - apply Qle_bool_iff in T.
    rewrite Z.add_comm, pow2_plus.
    apply (Qmult_le_compat_r _ _ (pow2 e0)) in T; [|apply Qlt_le_weak, pow2_pos].
    eapply Qle_trans; [exact T|].
    unfold Qdiv. rewrite <- Qmult_assoc, (Qmult_comm (/ pow2 e0)), Qmult_inv_r, Qmult_1_r.
    + apply Qle_refl.
    + intro E. pose proof (pow2_pos e0) as P. rewrite E in P. discriminate P.
  - replace (e0 - 1 + 52) with (e0 + 51) by lia.
    now apply pow2_below.
Qed.

Lemma rnd64_err (q : Q) (k : Z) :
  (Qabs q <= pow2 k)%Q -> -1022 <= k ->
  (Qabs (rnd64 q - q) <= pow2 (k - 53))%Q.
Proof.
  intros Hk Hr. unfold rnd64.
  pose proof (Qred_correct q) as Hq'. set (q' := Qred q) in *.
  destruct (Qnum q' =? 0) eqn:Z0.
  - apply Z.eqb_eq in Z0.
    assert (E : (q == 0)%Q).
    { rewrite <- Hq'. destruct q' as [n d]. simpl in Z0. subst n. reflexivity. }
    rewrite E. apply Qlt_le_weak, pow2_pos.
  - apply Z.eqb_neq in Z0.
    assert (Hnz : ~ (q' == 0)%Q).
    { intro E. apply Z0. destruct q' as [n d]. unfold Qeq in E. simpl in *. lia. }
    assert (He : ulp_exp q' <= k - 52).
    { apply ulp_exp_le; auto. now rewrite Hq'. }
    set (e := ulp_exp q') in *.
    set (y := (q' / pow2 e)%Q).
    assert (Hy : (q == y * pow2 e)%Q).
    { unfold y, Qdiv. rewrite <- Qmult_assoc, (Qmult_comm (/ pow2 e)), Qmult_inv_r, Qmult_1_r.
      - now symmetry.
      - intro E. pose proof (pow2_pos e) as P. rewrite E in P. discriminate P. }
    rewrite Qred_correct.
    assert (E : (inject_Z (round_half_even y) * pow2 e - q
                 == (inject_Z (round_half_even y) - y) * pow2 e)%Q).
    { rewrite Hy. ring. }
    rewrite E, Qabs_Qmult, (Qabs_pos (pow2 e)) by apply Qlt_le_weak, pow2_pos.
    apply Qle_trans with ((1 # 2) * pow2 e)%Q.
    + apply Qmult_le_compat_r; [apply round_half_even_err | apply Qlt_le_weak, pow2_pos].
    + assert (P : ((1 # 2) * pow2 e == pow2 (e - 1))%Q).
      { replace (e - 1) with (-1 + e) by lia. rewrite pow2_plus. reflexivity. }
      rewrite P. apply pow2_le. lia.
Qed.

Lemma float_of_int_100 : float_of_int 100 = (100 # 1)%Q.
Proof. vm_compute. reflexivity. Qed.

Lemma abs_bounds (x y : Q) : (Qabs x <= y -> - y <= x /\ x <= y)%Q.
Proof. apply Qabs_Qle_condition. Qed.

Lemma percentage_accuracy (a t : Z) :
  0 <= a <= t -> 0 < t ->
  (Qabs (round2 (fmul (rnd64 (Qmake (a * Z.sgn t) (Z.to_pos (Z.abs t)))) (float_of_int 100))
         - inject_Z (100 * a) / inject_Z t)
   <= (1 # 200) + pow2 (-43))%Q
  /\ exists n : Z,
       round2 (fmul (rnd64 (Qmake (a * Z.sgn t) (Z.to_pos (Z.abs t)))) (float_of_int 100))
       = rnd64 (inject_Z n / inject_Z 100).
Proof.
  intros Ha Ht.
  rewrite float_of_int_100.
  set (r := Qmake (a * Z.sgn t) (Z.to_pos (Z.abs t))).
  assert (Hr : (r == inject_Z a / inject_Z t)%Q).
  { unfold r. rewrite Z.sgn_pos, Z.mul_1_r, Z.abs_eq by lia.
    rewrite Qmake_Qdiv. rewrite Z2Pos.id by lia. reflexivity. }
  assert (Hr01 : (0 <= r /\ r <= 1)%Q).
  { unfold r, Qle. simpl. rewrite Z.sgn_pos, Z.abs_eq, Z2Pos.id by lia. lia. }
  assert (Hexact : (inject_Z (100 * a) / inject_Z t == (100 # 1) * r)%Q).
  { rewrite Hr, inject_Z_mult. unfold Qdiv. ring. }
  set (d1 := rnd64 r).
  assert (H1 : (Qabs (d1 - r) <= pow2 (0 - 53))%Q).
  { apply rnd64_err; [|lia]. rewrite Qabs_pos by tauto. apply Hr01. }
  apply abs_bounds in H1.
  unfold fmul, round2.
  set (d2 := rnd64 (d1 * (100 # 1))).
  assert (H2 : (Qabs (d2 - d1 * (100 # 1)) <= pow2 (8 - 53))%Q).
  { apply rnd64_err; [|lia]. apply Qabs_Qle_condition.
    change (pow2 (0 - 53)) with (1 # 9007199254740992)%Q in H1.
    change (pow2 8) with (256 # 1)%Q. split; lra. }
  apply abs_bounds in H2.
  set (n := round_half_even (d2 * inject_Z 100)).
  pose proof (round_half_even_err (d2 * inject_Z 100)) as H3. fold n in H3.
  apply abs_bounds in H3.
  set (m := (inject_Z n / inject_Z 100)%Q).
  assert (Hm : (m * (100 # 1) == inject_Z n)%Q).
  { unfold m, Qdiv. rewrite <- Qmult_assoc. rewrite (Qmult_comm (/ inject_Z 100)).
    change (inject_Z 100) with (100 # 1)%Q. rewrite Qmult_inv_r by discriminate. ring. }
  change (inject_Z 100) with (100 # 1)%Q in H3.
  change (pow2 (0 - 53)) with (1 # 9007199254740992)%Q in H1.
  change (pow2 (8 - 53)) with (1 # 35184372088832)%Q in H2.
  assert (H4 : (Qabs (rnd64 m - m) <= pow2 (8 - 53))%Q).
  { apply rnd64_err; [|lia]. apply Qabs_Qle_condition.
    change (pow2 8) with (256 # 1)%Q. split; lra. }
  apply abs_bounds in H4.
  change (pow2 (8 - 53)) with (1 # 35184372088832)%Q in H4.
  split.
  - rewrite Hexact. apply Qabs_Qle_condition.
    change (pow2 (-43)) with (1 # 8796093022208)%Q. split; lra.
  - exists n. reflexivity.
Qed.

Lemma rnd64_comp (p q : Q) : (p == q)%Q -> rnd64 p = rnd64 q.
Proof. intro H. unfold rnd64. rewrite (Qred_complete p q H). reflexivity. Qed.

(** A quotient of equal operands is exactly 1.0, and the percentage of a
    full attendance is exactly 100.0. *)
Lemma full_attendance_100 (t : Z) :
  0 < t ->
  round2 (fmul (rnd64 (Qmake (t * Z.sgn t) (Z.to_pos (Z.abs t)))) (float_of_int 100))
  = (100 # 1)%Q.
Proof.
  intro Ht.
  rewrite (rnd64_comp _ 1).
  - vm_compute. reflexivity.
  - unfold Qeq. simpl. rewrite Z.sgn_pos, Z.abs_eq, Z2Pos.id by lia. lia.
Qed.

(** ** Attendance percentage *)

Lemma present_late_le (l : list Attendance) :
  0 <= count_status "Present" l + count_status "Late" l <= len l.
Proof.
  unfold count_status, len.
  induction l as [|a l IH]; cbn [filter length]; [lia|].
  destruct (Attendance_status a =? "Present")%string eqn:E1,
           (Attendance_status a =? "Late")%string eqn:E2;
    cbn [length]; try lia.
  apply String.eqb_eq in E1, E2. congruence.
Qed.

Lemma present_late_all (l : list Attendance) :
  (forall a, In a l -> Attendance_status a = "Present" \/ Attendance_status a = "Late") ->
  count_status "Present" l + count_status "Late" l = len l.
Proof.
  unfold count_status, len.
  induction l as [|a l IH]; cbn [filter length]; intro H; [reflexivity|].
  assert (IH' := IH (fun b Hb => H b (or_intror Hb))).
  destruct (Attendance_status a =? "Present")%string eqn:E1,
           (Attendance_status a =? "Late")%string eqn:E2;
    cbn [length]; try lia.
  - apply String.eqb_eq in E1, E2. congruence.
  - apply String.eqb_neq in E1, E2. destruct (H a (or_introl eq_refl)); contradiction.
Qed.

(** What one turn of the loop computes for [user]. *)
Lemma exec_percentage_entry (user : User) (pend : list write) (db : DB) :
  let present := count_status "Present" (records_of db user) in
  let late := count_status "Late" (records_of db user) in
  let total := len (records_of db user) in
  exec (percentage_entry user) pend db
  = (Returned
       (JObj [("full_name", JStr (User_full_name user));
              ("present_days", JInt present);
              ("late_days", JInt late);
              ("attendance_percentage",
               if total >? 0
               then JFloat (round2 (fmul (rnd64 (Qmake ((present + late) * Z.sgn total)
                                                   (Z.to_pos (Z.abs total))))
                                      (float_of_int 100)))
               else JInt 0)]),
     pend, db).
Proof.
  intros present late total.
  unfold percentage_entry, all_attendance. cbn [bind exec].
  fold (records_of db user). fold (count_status "Present" (records_of db user)).
  fold (count_status "Late" (records_of db user)).
  fold present late total.
  rewrite exec_bind.
  destruct (total >? 0) eqn:E; [|reflexivity].
  unfold truediv.
  destruct (total =? 0) eqn:E0; [apply Z.eqb_eq in E0; rewrite E0 in E; discriminate|].
  reflexivity.
Qed.

Lemma exec_for_each {X B} (body : X -> prog B) (R : X -> B -> Prop) (db : DB) :
  (forall x pend, exists y, exec (body x) pend db = (Returned y, pend, db) /\ R x y) ->
  forall l pend,
    exists ys, exec (for_each l body) pend db = (Returned ys, pend, db) /\ Forall2 R l ys.
Proof.
  intros Hb l. induction l as [|x l IH]; intro pend; simpl.
  - exists []. split; [reflexivity | constructor].
  - destruct (Hb x pend) as [y [Hy HR]]. destruct (IH pend) as [ys [Hys HRs]].
    exists (y :: ys). split; [|now constructor].
    rewrite exec_bind, Hy, exec_bind, Hys. reflexivity.
Qed.

Lemma run_attendance_percentage (R : User -> json -> Prop) (db : DB) (current_user : User) :
  User_role current_user = "admin" ->
  (forall u pend, exists row,
      exec (percentage_entry u) pend db = (Returned row, pend, db) /\ R u row) ->
  exists rows,
    run (attendance_percentage current_user) db = (Returned (JList rows), db)
    /\ Forall2 R (filter (fun u => (User_role u =? "staff")%string) (users db)) rows.
Proof.
  intros Hadmin Hb.
  destruct (exec_for_each percentage_entry R db Hb
              (filter (fun u => (User_role u =? "staff")%string) (users db)) [])
    as [rows [Hrows HR]].
  exists rows. split; [|exact HR].
  unfold run, attendance_percentage, all_users. rewrite Hadmin.
  cbn [negb String.eqb Ascii.eqb Bool.eqb bind exec].
  rewrite exec_bind, Hrows. reflexivity.
Qed.

(** C7. For an admin caller [attendance_percentage] always returns, with
    one row per staff user in table order and the store untouched.  A
    user without records gets 0 and no division is attempted; any other
    user gets (present + late) / total * 100 rounded to two decimals. *)
Theorem attendance_percentage_rounded (db : DB) (current_user : User) :
  User_role current_user = "admin" ->
  exists rows,
    run (attendance_percentage current_user) db = (Returned (JList rows), db)
    /\ Forall2 (percentage_row db)
         (filter (fun u => (User_role u =? "staff")%string) (users db)) rows.
Proof.
  intro Hadmin. apply run_attendance_percentage; auto.
  intros u pend. eexists. split; [apply exec_percentage_entry|].
  unfold percentage_row.
  set (present := count_status "Present" (records_of db u)).
  set (late := count_status "Late" (records_of db u)).
  set (total := len (records_of db u)).
  pose proof (present_late_le (records_of db u)) as Hle. fold present late total in Hle.
  eexists. split; [reflexivity|]. split.
  - intro H0. rewrite H0. reflexivity.
  - intro Hpos. apply Z.gtb_lt in Hpos as Hgt. rewrite Hgt.
    destruct (percentage_accuracy (present + late) total Hle Hpos) as [Hacc [n Hn]].
    eexists. exists n. split; [reflexivity|]. split; [exact Hn | exact Hacc].
Qed.

Lemma attendance_percentage_rounded_witness :
  exists rows,
    run (attendance_percentage Sample.root) Sample.db2 = (Returned (JList rows), Sample.db2)
    /\ Forall2 (percentage_row Sample.db2) [Sample.ama; Sample.kofi] rows.
Proof.
  apply (attendance_percentage_rounded Sample.db2 Sample.root).
  reflexivity.
Defined.

(** Two of three days attended: 66.67, the double nearest to it. *)
Example attendance_percentage_two_thirds :
  run (attendance_percentage Sample.root) Sample.db2
  = (Returned
       (JList [JObj [("full_name", JStr "Ama Owusu");
                     ("present_days", JInt 1);
                     ("late_days", JInt 1);
                     ("attendance_percentage",
                      JFloat (4691484174324859 # 70368744177664))];
               JObj [("full_name", JStr "Kofi Mensah");
                     ("present_days", JInt 0);
                     ("late_days", JInt 0);
                     ("attendance_percentage", JInt 0)]]),
     Sample.db2).
Proof. vm_compute. reflexivity. Qed.

(** C10. When all records of a staff user carry Present or Late, the
    attended days are all the days, and the user's percentage is exactly
    100.0 if there is a record and the int 0 if there is none: never a
    value in between. *)
Theorem percentage_0_or_100 (db : DB) (current_user : User) :
  User_role current_user = "admin" ->
  exists rows,
    run (attendance_percentage current_user) db = (Returned (JList rows), db)
    /\ Forall2
         (fun u row =>
            (forall a, In a (records_of db u) ->
               Attendance_status a = "Present" \/ Attendance_status a = "Late") ->
            count_status "Present" (records_of db u) + count_status "Late" (records_of db u)
            = len (records_of db u)
            /\ row = JObj [("full_name", JStr (User_full_name u));
                           ("present_days", JInt (count_status "Present" (records_of db u)));
                           ("late_days", JInt (count_status "Late" (records_of db u)));
                           ("attendance_percentage",
                            if 0 <? len (records_of db u)
                            then JFloat (100 # 1) else JInt 0)])
         (filter (fun u => (User_role u =? "staff")%string) (users db)) rows.
Proof.
  intro Hadmin. apply run_attendance_percentage; auto.
  intros u pend. eexists. split; [apply exec_percentage_entry|].
  intro Hall. pose proof (present_late_all _ Hall) as Hsum.
  split; [exact Hsum|].
  rewrite Hsum. rewrite Z.gtb_ltb.
  destruct (Z.ltb_spec 0 (len (records_of db u))) as [Hpos|Hz]; [|reflexivity].
  rewrite full_attendance_100 by exact Hpos. reflexivity.
Qed.

Lemma percentage_0_or_100_witness :
  fst (run (attendance_percentage Sample.root) Sample.db1)
  = Returned
      (JList [JObj [("full_name", JStr "Ama Owusu");
                    ("present_days", JInt 1);
                    ("late_days", JInt 0);
                    ("attendance_percentage", JFloat (100 # 1))];
              JObj [("full_name", JStr "Kofi Mensah");
                    ("present_days", JInt 0);
                    ("late_days", JInt 0);
                    ("attendance_percentage", JInt 0)]]).
Proof.
  destruct (percentage_0_or_100 Sample.db1 Sample.root eq_refl) as [rows [Hrun HR]].
  rewrite Hrun. simpl. simpl in HR.
  inversion HR as [|u1 r1 l1 rs1 H1 HR1]; subst.
  inversion HR1 as [|u2 r2 l2 rs2 H2 HR2]; subst.
  inversion HR2; subst.
  destruct H1 as [_ ->].
  { intros a [<-|[]]. now left. }
  destruct H2 as [_ ->].
  { intros a []. }
  reflexivity.
Defined.

(** * Further properties of the handlers *)

(** ** What a request does to the store *)

Lemma User_unique_check (rows : list User) (u : User) :
  forallb (unique_ok User_get rows u) User_unique
  = negb (existsb (fun r => User_id r =? User_id u) rows)
    && negb (existsb (fun r => (User_email r =? User_email u)%string) rows).
Proof.
  unfold User_unique, unique_ok. simpl. rewrite andb_true_r.
  f_equal; f_equal; induction rows as [|r rows IH]; simpl; try reflexivity;
    rewrite IH, andb_true_r; reflexivity.
Qed.

Lemma existsb_false_In {X} (p : X -> bool) (l : list X) :
  existsb p l = false -> forall x, In x l -> p x = false.
Proof.
  intros H x Hx. destruct (p x) eqn:E; auto.
  assert (existsb p l = true) by (apply existsb_exists; eauto). congruence.
Qed.

(** A successful user insert appends the row under the counter's id, and
    no stored user had its email. *)
Lemma insert_user_inv (db db' : DB) (u : User) :
  apply_write (InsertUser u) db = Returned db' ->
  db' = mkDB (users db ++ [set_User_id (users_seq db) u]) (attendance db)
          (users_seq db + 1) (attendance_seq db)
  /\ (forall v, In v (users db) -> User_id v <> users_seq db)
  /\ (forall v, In v (users db) -> User_email v <> User_email u).
Proof.
  unfold apply_write. rewrite User_unique_check.
  destruct (existsb (fun r => User_id r =? _) (users db)) eqn:E1; simpl; [discriminate|].
  destruct (existsb (fun r => (User_email r =? _)%string) (users db)) eqn:E2;
    simpl; [discriminate|].
  intro H. injection H as <-. split; [reflexivity|]. split; intros v Hv.
  - pose proof (existsb_false_In _ _ E1 v Hv) as H. simpl in H.
    now apply Z.eqb_neq.
  - pose proof (existsb_false_In _ _ E2 v Hv) as H. simpl in H.
    now apply String.eqb_neq.
Qed.

Lemma insert_attendance_inv (db db' : DB) (a : Attendance) :
  apply_write (InsertAttendance a) db = Returned db' ->
  db' = mkDB (users db) (attendance db ++ [set_Attendance_id (attendance_seq db) a])
          (users_seq db) (attendance_seq db + 1).
Proof.
  unfold apply_write.
  match goal with |- context [if ?c then _ else _] => destruct c end; [|discriminate].
  intro H. injection H as <-. reflexivity.
Qed.

Section Effects.

Variable hash_password : string -> string.
Variable verify_password : string -> string -> bool.
Variable create_access_token : string -> string -> string.
Variable jwt_decode_sub : string -> option (option string).
Variable ip_address : string -> option ip_addr.

Lemma mark_attendance_effect (db : DB) (token host : string) (now : datetime) (u : User) :
  In u (users db) ->
  effect db (PostMarkAttendance token host now)
    (snd (run (mark_attendance ip_address host now u) db)).
Proof.
  intro Hu. unfold run, mark_attendance.
  destruct (ip_address host) as [ip|]; simpl; [|constructor].
  destruct (ip_in ip loopback32); simpl; [|constructor].
  destruct (User_role u =? "staff")%string eqn:Hrole; simpl; [|constructor].
  apply String.eqb_eq in Hrole.
  destruct (hd_error _) eqn:Hq; simpl; [constructor|].
  pose proof (hd_error_filter_None _ _ Hq) as Hnone. simpl in Hnone.
  destruct (time_gt (dt_time now) (time_hm 8 0)); cbn [exec app apply_writes snd];
    [constructor|].
  destruct (time_gt (dt_time now) (time_hm 7 30));
    (destruct (apply_write _ db) as [db'|e] eqn:Hw; simpl; [|constructor];
     refine (eff_check_in db token host now u _ db' Hu Hrole Hnone _ Hw); auto).
Qed.

Lemma delete_staff_effect (db : DB) (token : string) (staff_id : Z) (u : User) :
  effect db (DeleteDeleteStaff token staff_id)
    (snd (run (delete_staff staff_id u) db)).
Proof.
  unfold run, delete_staff.
  destruct (negb _); simpl; [constructor|].
  destruct (hd_error _) as [s|] eqn:Hq; cbn [exec app snd]; [|constructor].
  apply hd_error_filter_In in Hq. destruct Hq as [Hs Hq].
  apply andb_true_iff in Hq. destruct Hq as [Hid Hrole].
  apply Z.eqb_eq in Hid. apply String.eqb_eq in Hrole.
  rewrite Hid, delete_staff_writes. simpl.
  now apply (eff_delete db token staff_id s).
Qed.

Lemma with_current_user_effect (r : request) (token : string) (h : User -> prog json)
  (db : DB) :
  (forall u, In u (users db) -> effect db r (snd (run (h u) db))) ->
  effect db r (snd (run (with_current_user jwt_decode_sub token h) db)).
Proof.
  intro Hh. unfold run.
  destruct (exec_with_current_user jwt_decode_sub token h db) as [E|[u [Hu E]]];
    rewrite E; [constructor|].
  apply (Hh u Hu).
Qed.

(** Every request served alone has one of the listed effects. *)
Lemma serve_effect (r : request) (db : DB) :
  effect db r (snd (serve hash_password verify_password create_access_token
                      jwt_decode_sub ip_address r db)).
Proof.
  unfold serve.
  assert (Hro : forall (p : prog json) r', no_commit p -> effect db r' (snd (run p db))).
  { intros p r' Hp. rewrite run_no_commit by exact Hp. constructor. }
  destruct r; simpl handler.
  - unfold create_default_admin, first_user, run. cbn [bind exec].
    destruct (hd_error _) eqn:Hq; cbn [bind exec app apply_writes snd]; [constructor|].
    destruct (apply_write _ db) as [db'|e] eqn:Hw; simpl; [|constructor].
    eapply eff_admin; [| |exact Hw]; [reflexivity|].
    intros v Hv. pose proof (hd_error_filter_None _ _ Hq v Hv) as H. simpl in H.
    now apply String.eqb_neq.
  - unfold register.
    destruct (lower _ =? "admin")%string; [constructor|].
    unfold first_user, run. cbn [bind exec].
    destruct (hd_error _) eqn:Hq; cbn [bind exec app apply_writes snd]; [constructor|].
    destruct (apply_write _ db) as [db'|e] eqn:Hw; simpl; [|constructor].
    eapply eff_register; [| | |exact Hw]; try reflexivity.
    intros v Hv. pose proof (hd_error_filter_None _ _ Hq v Hv) as H. simpl in H.
    now apply String.eqb_neq.
  - apply Hro, no_commit_login.
  - apply with_current_user_effect. intros u _. constructor.
  - apply with_current_user_effect. intros u Hu. now apply mark_attendance_effect.
  - apply with_current_user_effect. intros u _. apply Hro, no_commit_get_absentees.
  - unfold forgot_password, first_user, run. simpl.
    destruct (hd_error _); constructor.
  - apply Hro, no_commit_reset_password.
  - apply with_current_user_effect. intros u _. apply Hro, no_commit_daily_summary.
  - apply with_current_user_effect. intros u _. apply Hro, no_commit_get_all_staff.
  - apply with_current_user_effect. intros u _. apply delete_staff_effect.
  - apply with_current_user_effect. intros u _. apply Hro, no_commit_attendance_percentage.
Qed.

End Effects.

(** ** Registering, logging in, resolving a token *)

Lemma filter_nil_iff {X} (p : X -> bool) (l : list X) :
  (forall x, In x l -> p x = false) -> filter p l = [].
Proof.
  intro H. induction l as [|x l IH]; simpl; [reflexivity|].
  rewrite (H x (or_introl eq_refl)). apply IH. intros y Hy. apply H. now right.
Qed.

Section Accounts.

Variable hash_password : string -> string.
Variable verify_password : string -> string -> bool.
Variable create_access_token : string -> string -> string.
Variable jwt_decode_sub : string -> option (option string).

(** What a successful registration did. *)
Lemma register_success_inv (user : UserCreate) (db db' : DB) (body : json) :
  run (register hash_password user) db = (Returned body, db') ->
  (forall v, In v (users db) -> User_email v <> UserCreate_email user)
  /\ db' = mkDB (users db ++ [mkUser (users_seq db) (UserCreate_full_name user)
                                (UserCreate_email user)
                                (hash_password (UserCreate_password user)) "staff"])
             (attendance db) (users_seq db + 1) (attendance_seq db).
Proof.
  unfold run, register.
  destruct (lower (UserCreate_role user) =? "admin")%string; simpl; [discriminate|].
  destruct (hd_error _) eqn:Hq; cbn [exec app apply_writes]; [discriminate|].
  destruct (apply_write _ db) as [db1|e] eqn:Hw; simpl; [|discriminate].
  intro H. injection H as _ <-.
  apply insert_user_inv in Hw. destruct Hw as [-> _]. split; [|reflexivity].
  intros v Hv. pose proof (hd_error_filter_None _ _ Hq v Hv) as H. simpl in H.
  now apply String.eqb_neq.
Qed.

(** X1. Once an email is registered, a further registration under the
    same email is refused with 400 "Email already registered", whatever
    name and password it carries, and the store stays as the first
    registration left it. *)
Theorem register_same_email_twice (user user' : UserCreate) (db db' : DB) (body : json) :
  run (register hash_password user) db = (Returned body, db') ->
  UserCreate_email user' = UserCreate_email user ->
  lower (UserCreate_role user') <> "admin" ->
  run (register hash_password user') db'
  = (Raised (HTTPException 400 "Email already registered"), db').
Proof.
  intros H Hemail Hrole.
  apply register_success_inv in H. destruct H as [_ ->].
  unfold run, register. apply String.eqb_neq in Hrole. rewrite Hrole. simpl.
  match goal with |- context [hd_error (filter ?p ?l)] =>
    destruct (hd_error_filter_Some p l
                (mkUser (users_seq db) (UserCreate_full_name user)
                   (UserCreate_email user)
                   (hash_password (UserCreate_password user)) "staff")) as [y Hy]
  end.
  - apply in_or_app. right. now left.
  - simpl. rewrite Hemail. apply String.eqb_refl.
  - rewrite Hy. reflexivity.
Qed.

(** X2. A user who has just registered can log in with the same email and
    password, provided the hasher verifies its own digest: the answer
    carries a token issued for that email and the role "staff", and the
    store is not touched. *)
Theorem register_then_login (user : UserCreate) (db db' : DB) (body : json) :
  verify_password (UserCreate_password user)
    (hash_password (UserCreate_password user)) = true ->
  run (register hash_password user) db = (Returned body, db') ->
  run (login verify_password create_access_token
         (UserCreate_email user) (UserCreate_password user)) db'
  = (Returned (JObj [("access_token",
                      JStr (create_access_token (UserCreate_email user) "staff"));
                     ("token_type", JStr "bearer");
                     ("role", JStr "staff")]), db').
Proof.
  intros Hverify H.
  apply register_success_inv in H. destruct H as [Hfree ->].
  unfold run, login, first_user. cbn [bind exec users].
  rewrite filter_app, (filter_nil_iff _ (users db)).
  - simpl. rewrite String.eqb_refl. simpl. rewrite Hverify. reflexivity.
  - intros v Hv. apply String.eqb_neq. now apply Hfree.
Qed.

Lemma exec_get_current_user (token : string) (db : DB) :
  (exists u, exec (get_current_user jwt_decode_sub token) [] db = (Returned u, [], db)
             /\ In u (users db)
             /\ jwt_decode_sub token = Some (Some (User_email u)))
  \/ (exec (get_current_user jwt_decode_sub token) [] db
      = (Raised credentials_exception, [], db)
      /\ forall u, In u (users db) ->
                   jwt_decode_sub token <> Some (Some (User_email u))).
Proof.
  unfold get_current_user.
  destruct (jwt_decode_sub token) as [[email|]|]; simpl;
    try (right; split; [reflexivity | intros u _; discriminate]).
  destruct (hd_error _) as [u|] eqn:Hq; simpl.
  - left. exists u. apply hd_error_filter_In in Hq. destruct Hq as [Hu He].
    apply String.eqb_eq in He. subst email. auto.
  - right. split; [reflexivity|]. intros u Hu E. injection E as E.
    pose proof (hd_error_filter_None _ _ Hq u Hu) as H. simpl in H.
    apply String.eqb_neq in H. congruence.
Qed.

(** X3. Resolving a bearer token never touches the store and has two
    outcomes only: a stored user whose email is the token's subject, or
    the 401 error, the latter exactly when the token does not decode, has
    no subject, or names an email no stored user has. *)
Theorem get_current_user_resolves (token : string) (db : DB) :
  (exists u, run (get_current_user jwt_decode_sub token) db = (Returned u, db)
             /\ In u (users db)
             /\ jwt_decode_sub token = Some (Some (User_email u)))
  \/ (run (get_current_user jwt_decode_sub token) db
      = (Raised (HTTPException 401 "Could not validate credentials"), db)
      /\ forall u, In u (users db) ->
                   jwt_decode_sub token <> Some (Some (User_email u))).
Proof.
  unfold run.
  destruct (exec_get_current_user token db) as [[u [E H]]|[E H]]; rewrite E.
  - left. exists u. auto.
  - right. auto.
Qed.

(** X4. When tokens decode to the subject they were issued for, the token
    a successful login returns resolves, on [/me], to the very user who
    logged in: the answer shows that user's full name and the role the
    login reported. *)
Theorem login_then_me (username password : string) (db db' : DB) (body : json) :
  (forall sub role, jwt_decode_sub (create_access_token sub role) = Some (Some sub)) ->
  run (login verify_password create_access_token username password) db
  = (Returned body, db') ->
  db' = db
  /\ exists u,
       In u (users db)
       /\ User_email u = username
       /\ verify_password password (User_password u) = true
       /\ body = JObj [("access_token",
                        JStr (create_access_token (User_email u) (User_role u)));
                       ("token_type", JStr "bearer");
                       ("role", JStr (User_role u))]
       /\ run (with_current_user jwt_decode_sub
                 (create_access_token (User_email u) (User_role u)) get_me) db
          = (Returned (JObj [("full_name", JStr (User_full_name u));
                             ("role", JStr (User_role u))]), db).
Proof.
  intros Hjwt. unfold run at 1. unfold login, first_user. cbn [bind exec].
  destruct (hd_error _) as [u|] eqn:Hq; simpl; [|discriminate].
  destruct (verify_password password (User_password u)) eqn:Hv; simpl; [|discriminate].
  intro H. injection H as <- <-. split; [reflexivity|].
  pose proof (hd_error_filter_In _ _ _ Hq) as [Hu He]. apply String.eqb_eq in He.
  exists u. repeat (split; [solve [auto]|]).
  unfold run, with_current_user, get_current_user. rewrite Hjwt.
  unfold first_user. cbn [bind exec]. rewrite He, Hq. reflexivity.
Qed.

End Accounts.

Lemma substring_all (s : string) : substring 0 (String.length s) s = s.
Proof. induction s as [|c s IH]; simpl; [reflexivity | now rewrite IH]. Qed.

Lemma Sample_jwt_round_trip (sub role : string) :
  Sample.jwt_decode_sub (Sample.create_access_token sub role) = Some (Some sub).
Proof.
  unfold Sample.jwt_decode_sub, Sample.create_access_token.
  cbn [append prefix String.length].
  destruct (ascii_dec "t" "t") as [_|N]; [|now destruct N].
  destruct (ascii_dec ":" ":") as [_|N]; [|now destruct N].
  replace (prefix "" sub) with true by (destruct sub; reflexivity).
  replace (S (S (String.length sub)) - 2)%nat with (String.length sub) by lia.
  cbn [substring]. now rewrite substring_all.
Qed.

Lemma register_same_email_twice_witness :
  run (register Sample.hash_password
         (mkUserCreate "Impostor" "esi@school.com" "other" "staff"))
      (snd (run (register Sample.hash_password
                   (mkUserCreate "Esi" "esi@school.com" "pw" "staff")) Sample.db0))
  = (Raised (HTTPException 400 "Email already registered"),
     snd (run (register Sample.hash_password
                 (mkUserCreate "Esi" "esi@school.com" "pw" "staff")) Sample.db0)).
Proof.
  refine (register_same_email_twice Sample.hash_password
            (mkUserCreate "Esi" "esi@school.com" "pw" "staff")
            (mkUserCreate "Impostor" "esi@school.com" "other" "staff")
            Sample.db0 _ (message "Staff registered successfully") _ _ _).
  - reflexivity.
  - reflexivity.
  - simpl. discriminate.
Defined.

Lemma register_then_login_witness :
  fst (run (login Sample.verify_password Sample.create_access_token
              "esi@school.com" "pw")
           (snd (run (register Sample.hash_password
                        (mkUserCreate "Esi" "esi@school.com" "pw" "teacher"))
                     Sample.db0)))
  = Returned (JObj [("access_token", JStr "t:esi@school.com");
                    ("token_type", JStr "bearer");
                    ("role", JStr "staff")]).
Proof.
  exact (f_equal fst
           (register_then_login Sample.hash_password Sample.verify_password
              Sample.create_access_token
              (mkUserCreate "Esi" "esi@school.com" "pw" "teacher")
              Sample.db0
              (snd (run (register Sample.hash_password
                           (mkUserCreate "Esi" "esi@school.com" "pw" "teacher"))
                        Sample.db0))
              (message "Staff registered successfully")
              eq_refl eq_refl)).
Defined.

Lemma login_then_me_witness :
  exists u,
    In u (users Sample.db0)
    /\ User_email u = "kofi@school.com"
    /\ run (with_current_user Sample.jwt_decode_sub
              (Sample.create_access_token (User_email u) (User_role u)) get_me)
           Sample.db0
       = (Returned (JObj [("full_name", JStr (User_full_name u));
                          ("role", JStr (User_role u))]), Sample.db0).
Proof.
  destruct (login_then_me Sample.verify_password Sample.create_access_token
              Sample.jwt_decode_sub "kofi@school.com" "pw2" Sample.db0 Sample.db0
              (JObj [("access_token", JStr "t:kofi@school.com");
                     ("token_type", JStr "bearer");
                     ("role", JStr "staff")])
              Sample_jwt_round_trip eq_refl)
    as [_ [u [H1 [H2 [_ [_ H3]]]]]].
  exists u. split; [exact H1 | split; [exact H2 | exact H3]].
Defined.

(** ** Who gets past the role gates *)

Section Gates.

Variable hash_password : string -> string.
Variable verify_password : string -> string -> bool.
Variable create_access_token : string -> string -> string.
Variable jwt_decode_sub : string -> option (option string).
Variable ip_address : string -> option ip_addr.

Lemma with_current_user_gated (role token : string) (h : User -> prog json) (db : DB) :
  gated role h ->
  (forall body, fst (run (with_current_user jwt_decode_sub token h) db) = Returned body ->
     exists u, In u (users db) /\ User_role u = role
               /\ jwt_decode_sub token = Some (Some (User_email u)))
  /\ (forall u, run (get_current_user jwt_decode_sub token) db = (Returned u, db) ->
        User_role u <> role ->
        exists detail,
          run (with_current_user jwt_decode_sub token h) db
          = (Raised (HTTPException 403 detail), db)).
Proof.
  intro Hg. unfold run, with_current_user. rewrite exec_bind.
  destruct (exec_get_current_user jwt_decode_sub token db) as [[u [E [Hu Hsub]]]|[E _]];
    rewrite E.
  - split.
    + intros body Hbody.
      destruct (String.eqb_spec (User_role u) role) as [Hr|Hr].
      * exists u. auto.
      * destruct (Hg u Hr) as [detail Hd]. rewrite Hd in Hbody. discriminate.
    + intros v Hv Hr. injection Hv as <-.
      destruct (Hg u Hr) as [detail Hd]. exists detail. rewrite Hd. reflexivity.
  - split; [intros body H; discriminate | intros v H; discriminate].
Qed.

Ltac gate_tac h :=
  intros u Hr; apply String.eqb_neq in Hr; unfold h; rewrite Hr; simpl;
  eexists; intros; reflexivity.

Lemma gated_get_absentees today : gated "admin" (get_absentees today).
Proof. gate_tac get_absentees. Qed.

Lemma gated_daily_summary today : gated "admin" (daily_summary today).
Proof. gate_tac daily_summary. Qed.

Lemma gated_get_all_staff : gated "admin" get_all_staff.
Proof. gate_tac get_all_staff. Qed.

Lemma gated_delete_staff staff_id : gated "admin" (delete_staff staff_id).
Proof. gate_tac delete_staff. Qed.

Lemma gated_attendance_percentage : gated "admin" attendance_percentage.
Proof. gate_tac attendance_percentage. Qed.

Lemma gated_my_attendance : gated "staff" my_attendance.
Proof. gate_tac my_attendance. Qed.

(** X5. The five admin endpoints (absentees, daily summary, all staff,
    delete staff, attendance percentage) answer only a token whose
    subject is the email of a stored user with role "admin"; a token that
    resolves to any other user gets a 403 and the store is unchanged. *)
Theorem admin_endpoints_need_admin (r : request) (token : string) (db : DB) :
  admin_token r = Some token ->
  (forall body,
      fst (serve hash_password verify_password create_access_token
             jwt_decode_sub ip_address r db) = Returned body ->
      exists u, In u (users db) /\ User_role u = "admin"
                /\ jwt_decode_sub token = Some (Some (User_email u)))
  /\ (forall u, run (get_current_user jwt_decode_sub token) db = (Returned u, db) ->
        User_role u <> "admin" ->
        exists detail,
          serve hash_password verify_password create_access_token
            jwt_decode_sub ip_address r db
          = (Raised (HTTPException 403 detail), db)).
Proof.
  intro Ht. unfold serve.
  destruct r; simpl in Ht; try discriminate; injection Ht as ->; simpl handler;
    apply with_current_user_gated.
  - apply gated_get_absentees.
  - apply gated_daily_summary.
  - apply gated_get_all_staff.
  - apply gated_delete_staff.
  - apply gated_attendance_percentage.
Qed.

(** X6. A check-in is accepted, and the attendance list is shown, only
    for a token whose subject is the email of a stored user with role
    "staff": an admin can neither check in nor read [/my-attendance]. *)
Theorem staff_endpoints_need_staff (token host : string) (now : datetime) (db : DB) :
  (forall body,
      fst (run (with_current_user jwt_decode_sub token
                  (mark_attendance ip_address host now)) db) = Returned body ->
      exists u, In u (users db) /\ User_role u = "staff"
                /\ jwt_decode_sub token = Some (Some (User_email u)))
  /\ (forall body,
        fst (run (with_current_user jwt_decode_sub token my_attendance) db)
        = Returned body ->
        exists u, In u (users db) /\ User_role u = "staff"
                  /\ jwt_decode_sub token = Some (Some (User_email u))).
Proof.
  split.
  - intros body. unfold run, with_current_user. rewrite exec_bind.
    destruct (exec_get_current_user jwt_decode_sub token db) as [[u [E [Hu Hsub]]]|[E _]];
      rewrite E; [|discriminate].
    intro H. exists u. split; [exact Hu|]. split; [|exact Hsub].
    unfold mark_attendance in H.
    destruct (ip_address host) as [ip|]; [|discriminate].
    destruct (ip_in ip loopback32); [|discriminate]. simpl in H.
    destruct (String.eqb_spec (User_role u) "staff"); [assumption | discriminate].
  - apply (with_current_user_gated "staff"). apply gated_my_attendance.
Qed.

End Gates.

Lemma admin_endpoints_need_admin_witness :
  exists detail,
    serve Sample.hash_password Sample.verify_password Sample.create_access_token
      Sample.jwt_decode_sub Sample.ip_address
      (DeleteDeleteStaff "t:ama@school.com" 2) Sample.db0
    = (Raised (HTTPException 403 detail), Sample.db0).
Proof.
  apply (proj2 (admin_endpoints_need_admin Sample.hash_password Sample.verify_password
                  Sample.create_access_token Sample.jwt_decode_sub Sample.ip_address
                  (DeleteDeleteStaff "t:ama@school.com" 2) "t:ama@school.com"
                  Sample.db0 eq_refl) Sample.ama).
  - reflexivity.
  - discriminate.
Defined.

(** ** How the tables evolve *)

Lemma NoDup_map_inj {X Y} (f : X -> Y) (l : list X) (a b : X) :
  NoDup (map f l) -> In a l -> In b l -> f a = f b -> a = b.
Proof.
  induction l as [|x l IH]; simpl; intros Hn Ha Hb E; [destruct Ha|].
  inversion Hn as [|? ? Hx Hl]; subst.
  destruct Ha as [<-|Ha], Hb as [<-|Hb]; auto.
  - exfalso. apply Hx. rewrite E. now apply in_map.
  - exfalso. apply Hx. rewrite <- E. now apply in_map.
Qed.

Lemma insert_user_ok (db : DB) (u : User) :
  fresh_ids db ->
  (forall v, In v (users db) -> User_email v <> User_email u) ->
  apply_write (InsertUser u) db
  = Returned (mkDB (users db ++ [set_User_id (users_seq db) u]) (attendance db)
                (users_seq db + 1) (attendance_seq db)).
Proof.
  intros [Hf _] Hfree. unfold apply_write. rewrite User_unique_check.
  rewrite !existsb_false; [reflexivity| |].
  - intros v Hv. simpl. apply String.eqb_neq. now apply Hfree.
  - intros v Hv. simpl. apply Z.eqb_neq.
    rewrite Forall_forall in Hf. specialize (Hf v Hv). lia.
Qed.

Lemma effect_users_emails (db db' : DB) (r : request) :
  effect db r db' ->
  NoDup (map User_email (users db)) -> NoDup (map User_email (users db')).
Proof.
  intros He Hn. destruct He as [r|u db' _ _ Hw|user u db' _ _ _ Hw
                               |token host now u status db' _ _ _ _ Hw
                               |token staff_id s _ _ _]; auto.
  - apply insert_user_inv in Hw. destruct Hw as [-> [_ Hfree]]. simpl.
    rewrite map_app. apply NoDup_snoc; auto. simpl.
    intro Hin. apply in_map_iff in Hin. destruct Hin as [v [E Hv]].
    now apply (Hfree v Hv).
  - apply insert_user_inv in Hw. destruct Hw as [-> [_ Hfree]]. simpl.
    rewrite map_app. apply NoDup_snoc; auto. simpl.
    intro Hin. apply in_map_iff in Hin. destruct Hin as [v [E Hv]].
    now apply (Hfree v Hv).
  - apply insert_attendance_inv in Hw. subst db'. exact Hn.
  - simpl. now apply NoDup_map_filter.
Qed.

Section Evolution.

Variable hash_password : string -> string.
Variable verify_password : string -> string -> bool.
Variable create_access_token : string -> string -> string.
Variable jwt_decode_sub : string -> option (option string).
Variable ip_address : string -> option ip_addr.

Local Abbreviation serve' :=
  (serve hash_password verify_password create_access_token jwt_decode_sub ip_address).
Local Abbreviation serve_all' :=
  (serve_all hash_password verify_password create_access_token jwt_decode_sub ip_address).

(** X7. Served one at a time, requests never leave two users with the
    same email: registration checks for the email first, and the startup
    insert is refused by the unique column when the email is taken. *)
Theorem emails_stay_unique (db : DB) (rs : list request) :
  NoDup (map User_email (users db)) ->
  NoDup (map User_email (users (serve_all' rs db))).
Proof.
  revert db. induction rs as [|r rs IH]; intros db Hn; simpl; [exact Hn|].
  apply IH. eapply effect_users_emails; [|exact Hn].
  apply serve_effect.
Qed.

(** X8. Only [delete_staff] removes or rewrites rows.  Any other request
    leaves both tables as they were, up to at most one row appended to
    one of them. *)
Theorem only_delete_removes (r : request) (db : DB) :
  (forall token staff_id, r <> DeleteDeleteStaff token staff_id) ->
  exists us atts,
    users (snd (serve' r db)) = (users db ++ us)%list
    /\ attendance (snd (serve' r db)) = (attendance db ++ atts)%list
    /\ (length us + length atts <= 1)%nat.
Proof.
  intro Hr. pose proof (serve_effect hash_password verify_password create_access_token
                          jwt_decode_sub ip_address r db) as He.
  destruct He as [r|u db' _ _ Hw|user u db' _ _ _ Hw
                 |token host now u status db' _ _ _ _ Hw
                 |token staff_id s _ _ _].
  - exists [], []. rewrite !app_nil_r. simpl. auto.
  - apply insert_user_inv in Hw. destruct Hw as [-> _].
    eexists [_], []. simpl. rewrite app_nil_r. auto.
  - apply insert_user_inv in Hw. destruct Hw as [-> _].
    eexists [_], []. simpl. rewrite app_nil_r. auto.
  - apply insert_attendance_inv in Hw. subst db'.
    eexists [], [_]. simpl. rewrite app_nil_r. auto.
  - now destruct (Hr token staff_id).
Qed.

(** X9. In a consistent store no request other than the startup hook
    changes the admin accounts: registration only ever adds staff, and
    deleting a staff id never removes an admin. *)
Theorem admins_only_from_startup (r : request) (db : DB) :
  consistent db ->
  r <> Startup ->
  filter (fun u => (User_role u =? "admin")%string) (users (snd (serve' r db)))
  = filter (fun u => (User_role u =? "admin")%string) (users db).
Proof.
  intros Hc Hr. pose proof (serve_effect hash_password verify_password create_access_token
                              jwt_decode_sub ip_address r db) as He.
  destruct He as [r|u db' _ _ Hw|user u db' Hrole _ _ Hw
                 |token host now u status db' _ _ _ _ Hw
                 |token staff_id s Hs Hid Hrole].
  - reflexivity.
  - now destruct Hr.
  - apply insert_user_inv in Hw. destruct Hw as [-> _]. simpl.
    rewrite filter_app. simpl. rewrite Hrole. simpl. apply app_nil_r.
  - apply insert_attendance_inv in Hw. subst db'. reflexivity.
  - simpl. pose proof (c_pk db Hc) as Hpk.
    assert (Hkeep : forall v, In v (users db) -> User_role v = "admin" ->
                              (User_id v =? staff_id) = false).
    { intros v Hv Hadm. apply Z.eqb_neq. intro E.
      assert (v = s) by (apply (NoDup_map_inj User_id (users db)); auto; congruence).
      subst v. rewrite Hrole in Hadm. discriminate. }
    clear Hpk Hs. induction (users db) as [|v l IH]; simpl; [reflexivity|].
    destruct (User_role v =? "admin")%string eqn:E.
    + rewrite (Hkeep v (or_introl eq_refl)) by now apply String.eqb_eq.
      simpl. rewrite E. f_equal. apply IH. intros; apply Hkeep; auto. now right.
    + destruct (negb (User_id v =? staff_id)); simpl; rewrite ?E;
        apply IH; intros; apply Hkeep; auto; now right.
Qed.


End Evolution.

Lemma emails_stay_unique_witness :
  NoDup (map User_email
           (users (serve_all Sample.hash_password Sample.verify_password
                     Sample.create_access_token Sample.jwt_decode_sub Sample.ip_address
                     [PostRegister (mkUserCreate "Esi" "esi@school.com" "pw" "staff");
                      PostRegister (mkUserCreate "Esi II" "esi@school.com" "pw" "staff");
                      Startup]
                     Sample.db0))).
Proof.
  apply (emails_stay_unique Sample.hash_password Sample.verify_password
           Sample.create_access_token Sample.jwt_decode_sub Sample.ip_address
           Sample.db0).
  simpl. repeat constructor; simpl; intuition discriminate.
Defined.

Lemma only_delete_removes_witness :
  exists us atts,
    users (snd (serve Sample.hash_password Sample.verify_password
                  Sample.create_access_token Sample.jwt_decode_sub Sample.ip_address
                  (PostMarkAttendance "t:kofi@school.com" "127.0.0.1"
                     (Sample.at_time 7 40 0)) Sample.db1))
    = (users Sample.db1 ++ us)%list
    /\ attendance (snd (serve Sample.hash_password Sample.verify_password
                          Sample.create_access_token Sample.jwt_decode_sub
                          Sample.ip_address
                          (PostMarkAttendance "t:kofi@school.com" "127.0.0.1"
                             (Sample.at_time 7 40 0)) Sample.db1))
       = (attendance Sample.db1 ++ atts)%list
    /\ (length us + length atts <= 1)%nat.
Proof.
  apply (only_delete_removes Sample.hash_password Sample.verify_password
           Sample.create_access_token Sample.jwt_decode_sub Sample.ip_address).
  intros token staff_id. discriminate.
Defined.

Lemma admins_only_from_startup_witness :
  filter (fun u => (User_role u =? "admin")%string)
    (users (snd (serve Sample.hash_password Sample.verify_password
                   Sample.create_access_token Sample.jwt_decode_sub Sample.ip_address
                   (DeleteDeleteStaff "t:admin@school.com" 3) Sample.db0)))
  = [Sample.root].
Proof.
  rewrite (admins_only_from_startup Sample.hash_password Sample.verify_password
             Sample.create_access_token Sample.jwt_decode_sub Sample.ip_address
             (DeleteDeleteStaff "t:admin@school.com" 3) Sample.db0 consistent_db0).
  - reflexivity.
  - discriminate.
Defined.


Section Records.

Variable hash_password : string -> string.
Variable verify_password : string -> string -> bool.
Variable create_access_token : string -> string -> string.
Variable jwt_decode_sub : string -> option (option string).
Variable ip_address : string -> option ip_addr.



End Records.



(** ** Reading attendance back *)

Lemma date_leb_total (a b : date) : date_leb a b = false -> date_leb b a = true.
Proof.
  unfold date_leb, date_cmp.
  destruct (Z.compare_spec (year a) (year b));
    destruct (Z.compare_spec (year b) (year a)); try lia;
    destruct (Z.compare_spec (month a) (month b));
    destruct (Z.compare_spec (month b) (month a)); try lia;
    destruct (Z.compare_spec (day a) (day b));
    destruct (Z.compare_spec (day b) (day a)); try lia;
    intros; try discriminate; reflexivity.
Qed.

Lemma date_leb_trans (a b c : date) :
  date_leb a b = true -> date_leb b c = true -> date_leb a c = true.
Proof.
  unfold date_leb, date_cmp.
  destruct (Z.compare_spec (year a) (year b)); try discriminate;
    destruct (Z.compare_spec (year b) (year c)); try discriminate;
    destruct (Z.compare_spec (year a) (year c)); try lia;
    try reflexivity;
    destruct (Z.compare_spec (month a) (month b)); try discriminate;
    destruct (Z.compare_spec (month b) (month c)); try discriminate;
    destruct (Z.compare_spec (month a) (month c)); try lia;
    try reflexivity;
    destruct (Z.compare_spec (day a) (day b)); try discriminate;
    destruct (Z.compare_spec (day b) (day c)); try discriminate;
    destruct (Z.compare_spec (day a) (day c)); try lia;
    reflexivity.
Qed.

Lemma insert_desc_perm (a : Attendance) (l : list Attendance) :
  Permutation (insert_desc a l) (a :: l).
Proof.
  induction l as [|b l IH]; simpl; [reflexivity|].
  destruct (date_leb (Attendance_date b) (Attendance_date a)); [reflexivity|].
  rewrite IH. apply perm_swap.
Qed.

Lemma order_by_date_desc_perm (l : list Attendance) :
  Permutation (order_by_date_desc l) l.
Proof.
  induction l as [|a l IH]; simpl; [reflexivity|].
  rewrite insert_desc_perm. now constructor.
Qed.

Lemma insert_desc_sorted (a : Attendance) (l : list Attendance) :
  StronglySorted not_earlier l -> StronglySorted not_earlier (insert_desc a l).
Proof.
  induction l as [|b l IH]; simpl; intro H; [repeat constructor|].
  inversion H as [|? ? Hl Hb]; subst.
  destruct (date_leb (Attendance_date b) (Attendance_date a)) eqn:E.
  - constructor; [exact H|]. constructor; [exact E|].
    rewrite Forall_forall in *. intros c Hc. unfold not_earlier in *.
    eapply date_leb_trans; [apply (Hb c Hc) | exact E].
  - constructor; [now apply IH|].
    rewrite Forall_forall in *. intros c Hc.
    apply (Permutation_in _ (insert_desc_perm a l)) in Hc.
    destruct Hc as [<-|Hc]; [|now apply Hb].
    unfold not_earlier. now apply date_leb_total.
Qed.

Lemma order_by_date_desc_sorted (l : list Attendance) :
  StronglySorted not_earlier (order_by_date_desc l).
Proof.
  induction l as [|a l IH]; simpl; [constructor | now apply insert_desc_sorted].
Qed.

(** X13. For a staff caller [/my-attendance] shows the caller's own
    records and nothing else, each exactly once, the latest date first,
    and leaves the store untouched. *)
Theorem my_attendance_latest_first (db : DB) (current_user : User) :
  User_role current_user = "staff" ->
  exists records,
    run (my_attendance current_user) db
    = (Returned (JList (map attendance_json records)), db)
    /\ Permutation records (records_of db current_user)
    /\ StronglySorted not_earlier records.
Proof.
  intro Hrole. exists (order_by_date_desc (records_of db current_user)).
  split; [|split].
  - unfold run, my_attendance. rewrite Hrole. reflexivity.
  - apply order_by_date_desc_perm.
  - apply order_by_date_desc_sorted.
Qed.

Lemma my_attendance_latest_first_witness :
  exists records,
    run (my_attendance Sample.ama) Sample.db2
    = (Returned (JList (map attendance_json records)), Sample.db2)
    /\ Permutation records (records_of Sample.db2 Sample.ama)
    /\ StronglySorted not_earlier records.
Proof.
  apply (my_attendance_latest_first Sample.db2 Sample.ama). reflexivity.
Defined.

Example my_attendance_of_ama :
  fst (run (my_attendance Sample.ama) Sample.db2)
  = Returned
      (JList [JObj [("date", JStr "2024-03-03"); ("check_in", JStr "09:00:00");
                    ("status", JStr "Excused")];
              JObj [("date", JStr "2024-03-02"); ("check_in", JStr "07:45:00");
                    ("status", JStr "Late")];
              JObj [("date", JStr "2024-03-01"); ("check_in", JStr "07:05:00");
                    ("status", JStr "Present")]]).
Proof. reflexivity. Qed.

(** ** The admin reports together *)

(** X14. For an admin caller the four reports are about one and the same
    list of staff users, the stored users with role "staff" in table
    order: [/all-staff] lists them, [/daily-summary] counts them,
    [/attendance-percentage] has one row for each, and every absentee of
    [/absentees] is one of them. *)
Theorem reports_share_staff_list (db : DB) (today : date) (current_user : User) :
  User_role current_user = "admin" ->
  exists (staff absentees : list User) (rows : list json) (present late absent : Z),
    (forall u, In u staff <-> In u (users db) /\ User_role u = "staff")
    /\ run (get_all_staff current_user) db
       = (Returned (JList (map user_json staff)), db)
    /\ run (daily_summary today current_user) db
       = (Returned (JObj [("total_staff", JInt (len staff));
                          ("present_count", JInt present);
                          ("late_count", JInt late);
                          ("absent_count", JInt absent)]), db)
    /\ run (attendance_percentage current_user) db = (Returned (JList rows), db)
    /\ length rows = length staff
    /\ run (get_absentees today current_user) db
       = (Returned (JObj [("date", JStr (str_date today));
                          ("absentees", JList (map user_json absentees))]), db)
    /\ incl absentees staff.
Proof.
  intro Hadmin.
  destruct (run_attendance_percentage (fun _ _ => True) db current_user Hadmin)
    as [rows [Hrows HR]].
  { intros u pend. eexists. split; [apply exec_percentage_entry | exact I]. }
  exists (filter (fun u => (User_role u =? "staff")%string) (users db)),
    (absent_users db today), rows.
  do 3 eexists.
  split; [|split; [|split; [|split; [|split; [|split]]]]].
  - intro u. rewrite filter_In, String.eqb_eq. reflexivity.
  - unfold run, get_all_staff. rewrite Hadmin. reflexivity.
  - unfold run, daily_summary. rewrite Hadmin. reflexivity.
  - exact Hrows.
  - symmetry. eapply Forall2_length. exact HR.
  - unfold run, get_absentees. rewrite Hadmin. reflexivity.
  - unfold absent_users. intros u Hu. apply filter_In in Hu. tauto.
Qed.

Lemma reports_share_staff_list_witness :
  exists (staff absentees : list User) (rows : list json),
    run (get_all_staff Sample.root) Sample.db1
    = (Returned (JList (map user_json staff)), Sample.db1)
    /\ run (attendance_percentage Sample.root) Sample.db1
       = (Returned (JList rows), Sample.db1)
    /\ length rows = length staff
    /\ incl absentees staff.
Proof.
  destruct (reports_share_staff_list Sample.db1 Sample.d1 Sample.root eq_refl)
    as [staff [absentees [rows [p [l [a [_ [H1 [_ [H2 [H3 [_ H4]]]]]]]]]]]].
  exists staff, absentees, rows. auto.
Defined.

Section CheckInReports.

Variable ip_address : string -> option ip_addr.

(** What an accepted check-in did. *)
Lemma mark_attendance_success_inv (db db' : DB) (host : string) (now : datetime)
  (u : User) (body : json) :
  run (mark_attendance ip_address host now u) db = (Returned body, db') ->
  exists status,
    (status = "Present" \/ status = "Late")
    /\ body = marked status
    /\ User_role u = "staff"
    /\ db' = mkDB (users db)
               (attendance db ++ [mkAttendance (attendance_seq db) (User_id u)
                                    (dt_date now) now status])
               (users_seq db) (attendance_seq db + 1).
Proof.
  unfold run, mark_attendance.
  destruct (ip_address host) as [ip|]; simpl; [|discriminate].
  destruct (ip_in ip loopback32); simpl; [|discriminate].
  destruct (User_role u =? "staff")%string eqn:Hrole; simpl; [|discriminate].
  apply String.eqb_eq in Hrole.
  destruct (hd_error _); simpl; [discriminate|].
  destruct (time_gt (dt_time now) (time_hm 8 0)); cbn [exec app apply_writes];
    [discriminate|].
  destruct (time_gt (dt_time now) (time_hm 7 30));
    (destruct (apply_write _ db) as [db1|e] eqn:Hw; simpl; [|discriminate];
     intro H; injection H as <- <-;
     apply insert_attendance_inv in Hw; subst db1;
     eexists; split; [|split; [reflexivity|split; [exact Hrole|reflexivity]]];
     auto).
Qed.

Lemma mem_Z_app (x : Z) (l1 l2 : list Z) :
  mem_Z x (l1 ++ l2) = mem_Z x l1 || mem_Z x l2.
Proof. unfold mem_Z. apply existsb_app. Qed.

Lemma filter_filter_and {X} (p q : X -> bool) (l : list X) :
  filter (fun x => p x && q x) l = filter q (filter p l).
Proof.
  induction l as [|x l IH]; simpl; [reflexivity|].
  destruct (p x); simpl; [destruct (q x)|]; now rewrite IH.
Qed.

(** X15. Once a check-in is accepted, the user is off the absentee list
    of that day and every other staff user stays where they were; the
    absentee lists of all other days are untouched. *)
Theorem check_in_leaves_absentees (db db' : DB) (host : string) (now : datetime)
  (u : User) (body : json) :
  run (mark_attendance ip_address host now u) db = (Returned body, db') ->
  absent_users db' (dt_date now)
  = filter (fun v => negb (User_id v =? User_id u)) (absent_users db (dt_date now))
  /\ (forall day, day <> dt_date now -> absent_users db' day = absent_users db day)
  /\ (forall day current_user,
        User_role current_user = "admin" ->
        run (get_absentees day current_user) db'
        = (Returned (JObj [("date", JStr (str_date day));
                           ("absentees", JList (map user_json (absent_users db' day)))]),
           db')).
Proof.
  intro H. apply mark_attendance_success_inv in H.
  destruct H as [status [_ [_ [_ ->]]]].
  split; [|split].
  - unfold absent_users. simpl. rewrite filter_app. simpl.
    rewrite date_eqb_refl, map_app. simpl.
    rewrite <- (filter_filter_and
                  (fun v => negb (mem_Z (User_id v)
                                    (map Attendance_user_id
                                       (filter (fun a => date_eqb (Attendance_date a)
                                                           (dt_date now))
                                          (attendance db)))))
                  (fun v => negb (User_id v =? User_id u))).
    apply filter_ext. intro v.
    rewrite mem_Z_app. unfold mem_Z at 2. simpl.
    rewrite orb_false_r, negb_orb. reflexivity.
  - intros day Hday. unfold absent_users. simpl. rewrite filter_app. simpl.
    destruct (date_eqb (dt_date now) day) eqn:E.
    + apply date_eqb_eq in E. congruence.
    + now rewrite app_nil_r.
  - intros day current_user Hadmin. unfold run, get_absentees. rewrite Hadmin.
    reflexivity.
Qed.

End CheckInReports.

Lemma check_in_leaves_absentees_witness :
  absent_users
    (snd (run (mark_attendance Sample.ip_address "127.0.0.1" (Sample.at_time 7 40 0)
                 Sample.kofi) Sample.db0))
    Sample.d1
  = filter (fun v => negb (User_id v =? User_id Sample.kofi))
      (absent_users Sample.db0 Sample.d1).
Proof.
  exact (proj1 (check_in_leaves_absentees Sample.ip_address Sample.db0
                  (snd (run (mark_attendance Sample.ip_address "127.0.0.1"
                               (Sample.at_time 7 40 0) Sample.kofi) Sample.db0))
                  "127.0.0.1" (Sample.at_time 7 40 0) Sample.kofi (marked "Late")
                  eq_refl)).
Defined.

(** ** After a staff user is deleted *)

Lemma delete_staff_success_inv (db db' : DB) (staff_id : Z) (current_user : User)
  (body : json) :
  run (delete_staff staff_id current_user) db = (Returned body, db') ->
  User_role current_user = "admin"
  /\ db' = mkDB (filter (fun u => negb (User_id u =? staff_id)) (users db))
             (filter (fun a => negb (Attendance_user_id a =? staff_id)) (attendance db))
             (users_seq db) (attendance_seq db).
Proof.
  unfold run, delete_staff.
  destruct (String.eqb_spec (User_role current_user) "admin") as [Hr|Hr]; simpl;
    [|discriminate].
  destruct (hd_error _) as [s|] eqn:Hq; cbn [exec app]; [|discriminate].
  apply hd_error_filter_In in Hq. destruct Hq as [_ Hq].
  apply andb_true_iff in Hq. destruct Hq as [Hid _]. apply Z.eqb_eq in Hid.
  rewrite Hid, delete_staff_writes. simpl.
  intro H. injection H as _ <-. auto.
Qed.

(** X16. After a staff user has been deleted, no stored user and no
    attendance record carries the id any more, and a repeated delete of
    the same id by any admin fails with 404 and changes nothing. *)
Theorem delete_staff_twice (db db' : DB) (staff_id : Z) (current_user again : User)
  (body : json) :
  run (delete_staff staff_id current_user) db = (Returned body, db') ->
  User_role again = "admin" ->
  (forall v, In v (users db') -> User_id v <> staff_id)
  /\ (forall a, In a (attendance db') -> Attendance_user_id a <> staff_id)
  /\ run (delete_staff staff_id again) db'
     = (Raised (HTTPException 404 "Staff not found"), db').
Proof.
  intros H Hadmin. apply delete_staff_success_inv in H. destruct H as [_ ->].
  assert (Hgone : forall v,
             In v (filter (fun u => negb (User_id u =? staff_id)) (users db)) ->
             User_id v <> staff_id).
  { intros v Hv. apply filter_In in Hv. destruct Hv as [_ Hv].
    now apply negb_true_iff, Z.eqb_neq in Hv. }
  split; [exact Hgone|]. split.
  - simpl. intros a Ha. apply filter_In in Ha. destruct Ha as [_ Ha].
    now apply negb_true_iff, Z.eqb_neq in Ha.
  - unfold run, delete_staff. rewrite Hadmin. cbn [negb String.eqb Ascii.eqb Bool.eqb].
    unfold first_user. cbn [bind exec users].
    rewrite filter_nil_iff; [reflexivity|].
    intros v Hv. apply andb_false_iff. left. apply Z.eqb_neq. now apply Hgone.
Qed.

Lemma delete_staff_twice_witness :
  run (delete_staff 1 Sample.root)
      (snd (run (delete_staff 1 Sample.root) Sample.db1))
  = (Raised (HTTPException 404 "Staff not found"),
     snd (run (delete_staff 1 Sample.root) Sample.db1)).
Proof.
  apply (delete_staff_twice Sample.db1
           (snd (run (delete_staff 1 Sample.root) Sample.db1))
           1 Sample.root Sample.root (message "Staff deleted successfully")
           eq_refl eq_refl).
Defined.

Section Revocation.

Variable jwt_decode_sub : string -> option (option string).

(** X17. Deleting a staff user locks that user out: in a store without
    duplicate emails, a token issued for the deleted user's email is
    answered with 401 by every endpoint behind [get_current_user], and the
    store is not touched. *)
Theorem delete_staff_revokes_token {A} (db db' : DB) (u current_user : User)
  (token : string) (body : json) (h : User -> prog A) :
  NoDup (map User_email (users db)) ->
  In u (users db) ->
  jwt_decode_sub token = Some (Some (User_email u)) ->
  run (delete_staff (User_id u) current_user) db = (Returned body, db') ->
  run (with_current_user jwt_decode_sub token h) db'
  = (Raised (HTTPException 401 "Could not validate credentials"), db').
Proof.
  intros Hn Hu Htok H. apply delete_staff_success_inv in H. destruct H as [_ ->].
  unfold run, with_current_user, get_current_user. rewrite Htok.
  unfold first_user. cbn [bind exec users].
  rewrite filter_nil_iff; [reflexivity|].
  intros v Hv. apply filter_In in Hv. destruct Hv as [Hv Hid].
  apply String.eqb_neq. intro E.
  assert (v = u) by (apply (NoDup_map_inj User_email (users db)); auto).
  subst v. rewrite Z.eqb_refl in Hid. discriminate.
Qed.

End Revocation.

Lemma delete_staff_revokes_token_witness :
  run (with_current_user Sample.jwt_decode_sub "t:ama@school.com"
         (mark_attendance Sample.ip_address "127.0.0.1" (Sample.at_time 7 10 0)))
      (snd (run (delete_staff 1 Sample.root) Sample.db0))
  = (Raised (HTTPException 401 "Could not validate credentials"),
     snd (run (delete_staff 1 Sample.root) Sample.db0)).
Proof.
  apply (delete_staff_revokes_token Sample.jwt_decode_sub Sample.db0
           (snd (run (delete_staff 1 Sample.root) Sample.db0))
           Sample.ama Sample.root "t:ama@school.com"
           (message "Staff deleted successfully")).
  - simpl. repeat constructor; simpl; intuition discriminate.
  - simpl. tauto.
  - reflexivity.
  - reflexivity.
Defined.

(** ** The location gate *)

(** The only exception a write raises is the storage engine's. *)
Lemma apply_write_raises (w : write) (db : DB) (e : exn) :
  apply_write w db = Raised e -> e = IntegrityError.
Proof.
  destruct w; simpl; try discriminate;
    match goal with |- context [if ?c then _ else _] => destruct c end;
    intro H; try discriminate; now injection H.
Qed.

Section Location.

Variable ip_address : string -> option ip_addr.

(** X18. The location test lets exactly one client address through,
    IPv4 127.0.0.1: every other IPv4 address and every IPv6 address, the
    IPv6 loopback included, is answered with the location 403; a client
    host that is not an address at all ends in an unhandled [ValueError].
    Neither case writes to the store. *)
Theorem location_gate_exact (db : DB) (host : string) (now : datetime) (u : User) :
  (ip_address host = None ->
   run (mark_attendance ip_address host now u) db = (Raised ValueError, db))
  /\ (forall client_ip,
        ip_address host = Some client_ip ->
        0 <= ip_int client_ip < 2 ^ (if ip_version client_ip =? 4 then 32 else 128) ->
        (run (mark_attendance ip_address host now u) db
         = (Raised (HTTPException 403 "Attendance allowed only on school network"), db)
         <-> client_ip <> IPv4Address 2130706433)).
Proof.
  split.
  - intro Hn. unfold run, mark_attendance. rewrite Hn. reflexivity.
  - intros ip Hp Hrange. split.
    + intros H E. subst ip. revert H.
      unfold run, mark_attendance. rewrite Hp. simpl.
      destruct (User_role u =? "staff")%string; simpl; [|discriminate].
      destruct (hd_error _); simpl; [discriminate|].
      destruct (time_gt (dt_time now) (time_hm 8 0)); cbn [exec app apply_writes];
        [discriminate|].
      destruct (time_gt (dt_time now) (time_hm 7 30));
        (destruct (apply_write _ db) as [db1|e] eqn:Hw; simpl; [discriminate|];
         apply apply_write_raises in Hw; subst e; discriminate).
    + intro Hne.
      assert (Hout : ip_in ip loopback32 = false).
      { destruct ip as [n|n]; [|reflexivity].
        destruct (ip_in (IPv4Address n) loopback32) eqn:E; [|reflexivity].
        apply ip_in_loopback32 in E; [contradiction | exact Hrange]. }
      unfold run, mark_attendance. rewrite Hp, Hout. reflexivity.
Qed.

End Location.

Lemma location_gate_exact_witness :
  run (mark_attendance Sample.ip_address "::1" (Sample.at_time 7 10 0) Sample.ama)
      Sample.db0
  = (Raised (HTTPException 403 "Attendance allowed only on school network"), Sample.db0).
Proof.
  apply (proj2 (location_gate_exact Sample.ip_address Sample.db0 "::1"
                  (Sample.at_time 7 10 0) Sample.ama) (IPv6Address 1) eq_refl).
  - simpl. lia.
  - discriminate.
Defined.

(** ** No constraint violation surfaces *)

Section NoStorageError.

Variable hash_password : string -> string.
Variable verify_password : string -> string -> bool.
Variable create_access_token : string -> string -> string.
Variable jwt_decode_sub : string -> option (option string).
Variable ip_address : string -> option ip_addr.

Lemma with_current_user_outcome (token : string) (h : User -> prog json) (db : DB)
  (P : outcome json -> Prop) :
  P (Raised credentials_exception) ->
  (forall u, In u (users db) -> P (fst (run (h u) db))) ->
  P (fst (run (with_current_user jwt_decode_sub token h) db)).
Proof.
  intros H401 Hh. unfold run.
  destruct (exec_with_current_user jwt_decode_sub token h db) as [E|[u [Hu E]]];
    rewrite E; [exact H401|].
  apply (Hh u Hu).
Qed.

Lemma mark_attendance_outcome (db : DB) (host : string) (now : datetime) (u : User) :
  consistent db -> In u (users db) ->
  no_store_error (fst (run (mark_attendance ip_address host now u) db)).
Proof.
  intros Hc Hu. unfold run, mark_attendance.
  destruct (ip_address host) as [ip|]; simpl; auto.
  destruct (ip_in ip loopback32); simpl; auto.
  destruct (User_role u =? "staff")%string; simpl; auto.
  destruct (hd_error _); simpl; auto.
  destruct (time_gt (dt_time now) (time_hm 8 0)); cbn [exec app apply_writes];
    [exact I|].
  rewrite insert_attendance_ok; [exact I | apply (c_fresh db Hc) |].
  exists u. auto.
Qed.

(** X19. On a consistent store no request other than the startup hook
    ends in a storage constraint violation or a division by zero when it
    is served alone: registration has checked the email, a check-in
    inserts for a stored user, and [delete_staff] removes the attendance
    records before the user they refer to. *)
Theorem no_constraint_violation (r : request) (db : DB) :
  consistent db ->
  r <> Startup ->
  no_store_error (fst (serve hash_password verify_password create_access_token
                   jwt_decode_sub ip_address r db)).
Proof.
  intros Hc Hr. unfold serve.
  destruct r; simpl handler; try (now destruct Hr);
    try (apply with_current_user_outcome; [exact I | intros u Hu]).
  - unfold run, register.
    destruct (lower _ =? "admin")%string; simpl; auto.
    destruct (hd_error _) eqn:Hq; cbn [exec app apply_writes]; [exact I|].
    rewrite insert_user_ok; [exact I | apply (c_fresh db Hc) |].
    intros v Hv. pose proof (hd_error_filter_None _ _ Hq v Hv) as H. simpl in H.
    now apply String.eqb_neq.
  - unfold run, login. simpl.
    destruct (hd_error _); simpl; auto.
    destruct (verify_password _ _); simpl; auto.
  - exact I.
  - now apply mark_attendance_outcome.
  - unfold run, get_absentees. destruct (negb _); simpl; auto.
  - unfold run, forgot_password. simpl. destruct (hd_error _); simpl; auto.
  - exact I.
  - unfold run, daily_summary. destruct (negb _); simpl; auto.
  - unfold run, get_all_staff. destruct (negb _); simpl; auto.
  - unfold run, delete_staff. destruct (negb _); simpl; auto.
    destruct (hd_error _) as [s|] eqn:Hq; cbn [exec app]; [|exact I].
    apply hd_error_filter_In in Hq. destruct Hq as [_ Hq].
    apply andb_true_iff in Hq. destruct Hq as [Hid _]. apply Z.eqb_eq in Hid.
    rewrite Hid, delete_staff_writes. exact I.
  - destruct (String.eqb_spec (User_role u) "admin") as [Hadm|Hadm].
    + destruct (run_attendance_percentage (fun _ _ => True) db u Hadm) as [rows [E _]].
      * intros v pend. eexists. split; [apply exec_percentage_entry | exact I].
      * rewrite E. exact I.
    + apply String.eqb_neq in Hadm. unfold run, attendance_percentage.
      rewrite Hadm. simpl. exact I.
Qed.

End NoStorageError.

Lemma no_constraint_violation_witness :
  no_store_error (fst (serve Sample.hash_password Sample.verify_password
                   Sample.create_access_token Sample.jwt_decode_sub Sample.ip_address
                   (DeleteDeleteStaff "t:admin@school.com" 1) Sample.db1)).
Proof.
  apply (no_constraint_violation Sample.hash_password Sample.verify_password
           Sample.create_access_token Sample.jwt_decode_sub Sample.ip_address).
  - constructor; simpl.
    + split; repeat constructor; simpl; lia.
    + repeat constructor; simpl; intuition discriminate.
    + intros a [<-|[]]. exists Sample.ama. simpl. tauto.
    + repeat constructor. simpl. tauto.
    + intros a [<-|[]]. now left.
  - discriminate.
Defined.

(** Deleting the user before the records would be refused by the foreign
    key: the order of the two deletes in [delete_staff] matters. *)
Example delete_user_first_is_refused :
  apply_writes [DeleteUser 1;
                DeleteAttendanceWhere (fun a => Attendance_user_id a =? 1)] Sample.db1
  = Raised IntegrityError.
Proof. reflexivity. Qed.

(** ** Overlapping requests and the unique email column *)

Lemma User_set_email (c : string) (v : value) (u : User) :
  c <> "email" -> User_email (User_set c v u) = User_email u.
Proof.
  intro Hc. unfold User_set. destruct v; try reflexivity.
  destruct (c =? "full_name")%string; [reflexivity|].
  destruct (String.eqb_spec c "email"); [contradiction|].
  destruct (c =? "password")%string; [reflexivity|].
  destruct (c =? "role")%string; reflexivity.
Qed.

Lemma apply_write_emails (w : write) (db db' : DB) :
  write_keeps_emails w ->
  apply_write w db = Returned db' ->
  NoDup (map User_email (users db)) -> NoDup (map User_email (users db')).
Proof.
  intros Hw H Hn. destruct w as [u|a|pk c v|p|pk]; simpl in Hw.
  - apply insert_user_inv in H. destruct H as [-> [_ Hfree]]. simpl.
    rewrite map_app. apply NoDup_snoc; auto. simpl.
    intro Hin. apply in_map_iff in Hin. destruct Hin as [x [E Hx]].
    now apply (Hfree x Hx).
  - apply insert_attendance_inv in H. subst db'. exact Hn.
  - simpl in H. injection H as <-. simpl. rewrite map_map.
    erewrite map_ext; [exact Hn|]. intro x. simpl.
    destruct (User_id x =? pk); [now apply User_set_email | reflexivity].
  - simpl in H. injection H as <-. exact Hn.
  - simpl in H. destruct (existsb _ (attendance db)); [discriminate|].
    injection H as <-. simpl. now apply NoDup_map_filter.
Qed.

Lemma apply_writes_emails (ws : list write) (db db' : DB) :
  Forall write_keeps_emails ws ->
  apply_writes ws db = Returned db' ->
  NoDup (map User_email (users db)) -> NoDup (map User_email (users db')).
Proof.
  revert db. induction ws as [|w ws IH]; intros db Hws H Hn; simpl in H.
  - injection H as <-. exact Hn.
  - inversion Hws as [|? ? Hw Hrest]; subst.
    destruct (apply_write w db) as [db1|e] eqn:E; [|discriminate].
    apply (IH db1 Hrest H). eapply apply_write_emails; eauto.
Qed.

Lemma setattr_write_keeps (u : User) (n : string) (v : value) :
  n <> "email" -> Forall write_keeps_emails (setattr_write u n v).
Proof.
  intro Hn. unfold setattr_write. destruct (mem_string n User_columns); repeat constructor.
  exact Hn.
Qed.

Lemma exec_emails {A} (p : prog A) :
  keeps_emails p ->
  forall pend db,
    Forall write_keeps_emails pend ->
    NoDup (map User_email (users db)) ->
    NoDup (map User_email (users (snd (exec p pend db)))).
Proof.
  induction 1; intros pend db Hp Hn; simpl; auto.
  - apply IHkeeps_emails; auto. apply Forall_app. split; auto. repeat constructor.
  - apply IHkeeps_emails; auto. apply Forall_app. split; auto. repeat constructor.
  - apply IHkeeps_emails; auto. apply Forall_app. split; auto.
    now apply setattr_write_keeps.
  - apply IHkeeps_emails; auto. apply Forall_app. split; auto. repeat constructor.
  - apply IHkeeps_emails; auto. apply Forall_app. split; auto. repeat constructor.
  - destruct (apply_writes pend db) as [db1|e] eqn:E; simpl; auto.
    apply IHkeeps_emails; [constructor|]. eapply apply_writes_emails; eauto.
Qed.

Lemma step_emails {A} (t : thread A) (db : DB) :
  keeps_emails (code t) ->
  Forall write_keeps_emails (pending t) ->
  NoDup (map User_email (users db)) ->
  keeps_emails (code (fst (step t db)))
  /\ Forall write_keeps_emails (pending (fst (step t db)))
  /\ NoDup (map User_email (users (snd (step t db)))).
Proof.
  destruct t as [p pend]. simpl. intros Hk Hp Hn. unfold step. simpl.
  inversion Hk; subst; simpl; auto.
  - repeat split; auto. apply Forall_app. split; auto. repeat constructor.
  - repeat split; auto. apply Forall_app. split; auto. repeat constructor.
  - repeat split; auto. apply Forall_app. split; auto. now apply setattr_write_keeps.
  - repeat split; auto. apply Forall_app. split; auto. repeat constructor.
  - repeat split; auto. apply Forall_app. split; auto. repeat constructor.
  - destruct (apply_writes pend db) as [db1|e] eqn:E; simpl.
    + repeat split; auto. eapply apply_writes_emails; eauto.
    + repeat split; auto. constructor.
Qed.

Lemma run2_emails {A B} (sched : list bool) :
  forall (t1 : thread A) (t2 : thread B) (db : DB),
    keeps_emails (code t1) -> Forall write_keeps_emails (pending t1) ->
    keeps_emails (code t2) -> Forall write_keeps_emails (pending t2) ->
    NoDup (map User_email (users db)) ->
    NoDup (map User_email (users (snd (run2 sched t1 t2 db)))).
Proof.
  induction sched as [|b sched IH]; intros t1 t2 db Hk1 Hp1 Hk2 Hp2 Hn; simpl.
  - pose proof (exec_emails (code t1) Hk1 (pending t1) db Hp1 Hn) as H1.
    destruct (exec (code t1) (pending t1) db) as [[r1 pend1] db1]. simpl in H1.
    pose proof (exec_emails (code t2) Hk2 (pending t2) db1 Hp2 H1) as H2.
    destruct (exec (code t2) (pending t2) db1) as [[r2 pend2] db2]. exact H2.
  - destruct b.
    + destruct (step_emails t1 db Hk1 Hp1 Hn) as [Hk [Hp Hn']].
      destruct (step t1 db) as [t1' db']. simpl in *. now apply IH.
    + destruct (step_emails t2 db Hk2 Hp2 Hn) as [Hk [Hp Hn']].
      destruct (step t2 db) as [t2' db']. simpl in *. now apply IH.
Qed.

Lemma keeps_emails_bind {A B} (m : prog A) (f : A -> prog B) :
  keeps_emails m -> (forall a, keeps_emails (f a)) -> keeps_emails (bind m f).
Proof.
  induction 1; intro Hf; simpl; try constructor; auto.
Qed.

Lemma keeps_emails_for_each {X B} (l : list X) (body : X -> prog B) :
  (forall x, keeps_emails (body x)) -> keeps_emails (for_each l body).
Proof.
  intro Hb. induction l as [|x l IH]; simpl; [constructor|].
  apply keeps_emails_bind; auto. intro y.
  apply keeps_emails_bind; auto. intro ys. constructor.
Qed.

Ltac keeps_emails_tac :=
  repeat first
    [ apply keeps_emails_for_each; intro
    | apply keeps_emails_bind; [|intro]
    | apply ke_SetAttr; [discriminate|]
    | constructor; try intro
    | match goal with
      | |- keeps_emails (if ?c then _ else _) => destruct c
      | |- keeps_emails (match ?x with _ => _ end) => destruct x
      end ].

Section Overlap.

Variable hash_password : string -> string.
Variable verify_password : string -> string -> bool.
Variable create_access_token : string -> string -> string.
Variable jwt_decode_sub : string -> option (option string).
Variable ip_address : string -> option ip_addr.

Lemma handler_keeps_emails (r : request) :
  keeps_emails (handler hash_password verify_password create_access_token
                  jwt_decode_sub ip_address r).
Proof.
  destruct r; simpl handler;
    unfold with_current_user, get_current_user, create_default_admin, register, login,
      get_me, mark_attendance, get_absentees, forgot_password, daily_summary,
      get_all_staff, delete_staff, attendance_percentage, percentage_entry, truediv,
      first_user, all_users, first_attendance, all_attendance;
    try (unfold reset_password; simpl);
    keeps_emails_tac.
Qed.

(** X20. However two requests overlap, they never leave two users with
    one email: [email] is declared unique, so the second of two racing
    registrations of the same email is refused at commit.  (No such
    declaration protects the attendance table.) *)
Theorem overlapping_requests_keep_emails_unique (sched : list bool) (r1 r2 : request)
  (db : DB) :
  NoDup (map User_email (users db)) ->
  NoDup (map User_email
           (users (snd (run2 sched
                          (mkThread (handler hash_password verify_password
                                       create_access_token jwt_decode_sub ip_address r1) [])
                          (mkThread (handler hash_password verify_password
                                       create_access_token jwt_decode_sub ip_address r2) [])
                          db)))).
Proof.
  intro Hn. apply run2_emails; simpl; auto using handler_keeps_emails.
Qed.

End Overlap.

Lemma overlapping_requests_keep_emails_unique_witness :
  NoDup (map User_email
           (users (snd (run2 [true; false]
                          (mkThread (handler Sample.hash_password Sample.verify_password
                                       Sample.create_access_token Sample.jwt_decode_sub
                                       Sample.ip_address
                                       (PostRegister
                                          (mkUserCreate "Esi" "esi@school.com" "a" "staff")))
                             [])
                          (mkThread (handler Sample.hash_password Sample.verify_password
                                       Sample.create_access_token Sample.jwt_decode_sub
                                       Sample.ip_address
                                       (PostRegister
                                          (mkUserCreate "Esi" "esi@school.com" "b" "staff")))
                             [])
                          Sample.db0)))).
Proof.
  apply (overlapping_requests_keep_emails_unique Sample.hash_password
           Sample.verify_password Sample.create_access_token Sample.jwt_decode_sub
           Sample.ip_address).
  simpl. repeat constructor; simpl; intuition discriminate.
Defined.

(** The two racing registrations: the first is stored, the second ends in
    the storage engine's exception. *)
Example racing_registrations :
  fst (run2 [true; false]
         (mkThread (register Sample.hash_password
                      (mkUserCreate "Esi" "esi@school.com" "a" "staff")) [])
         (mkThread (register Sample.hash_password
                      (mkUserCreate "Esi" "esi@school.com" "b" "staff")) [])
         Sample.db0)
  = (Returned (message "Staff registered successfully"), Raised IntegrityError).
Proof. reflexivity. Qed.
